(** * Cosmic Coffee payment service: slowdown simulator and payment outcome

    A shallow embedding of [payment/services/payment_processor.py],
    [payment/main.py] and [services/payment/models.py].

    Conventions of the embedding:
    - Python floats (timestamps from [time.time()], delays, amounts, random
      draws) are exact rationals [Q]; rounding is not modelled.
    - The readings of the outside world that one call consumes
      ([time.time()], [random.random()], [uuid.uuid4()]) are explicit
      arguments, in the order the code reads them.
    - Methods that mutate [self] and write to the logger are computations
      in the monad [Proc]: they take the processor, and give back a value,
      the processor after the call and the events emitted. *)

From Stdlib Require Import QArith Lqa ZArith Lia String Ascii List Bool.
From stdpp Require Import gmap strings.
Import ListNotations.

Open Scope string_scope.
Open Scope Q_scope.

(** ** Python values

    The values that occur in the result dicts and in the [extra] of log
    records. A number is a [VFloat], whether the code writes it as an int
    or as a float. *)

Inductive PyVal : Type :=
| VNone
| VBool (b : bool)
| VFloat (q : Q)
| VStr (s : string).

(** [x < y] on floats. *)
Definition Qlt_bool (x y : Q) : bool := negb (Qle_bool y x).

(** Truth value of a float: [0.0] is false. *)
Definition float_truthy (x : Q) : bool := negb (Qeq_bool x 0).

(** Truth value of an attribute that holds [None] or a float. *)
Definition timestamp_truthy (t : option Q) : bool :=
  match t with
  | None => false
  | Some x => float_truthy x
  end.

(** Truth value of a Python value, as [not v] and [if v] compute it. *)
Definition truthy (v : PyVal) : bool :=
  match v with
  | VNone => false
  | VBool b => b
  | VFloat q => float_truthy q
  | VStr s => negb (String.eqb s EmptyString)
  end.

(** [str.lower()] on ASCII text. *)
Definition ascii_lower (c : ascii) : ascii :=
  let n := nat_of_ascii c in
  if (65 <=? n)%nat && (n <=? 90)%nat then ascii_of_nat (n + 32) else c.

Fixpoint lower (s : string) : string :=
  match s with
  | EmptyString => EmptyString
  | String c rest => String (ascii_lower c) (lower rest)
  end.

(** [random.uniform(a, b)] is [a + (b - a) * random()], with [u] the value
    [random()] returns, a float of [[0, 1)]. *)
Definition uniform (a b u : Q) : Q := a + (b - a) * u.

(** ** Events a call emits, in order *)

Inductive Level : Type := INFO | WARNING | ERROR.

Inductive Event : Type :=
| Log (level : Level) (msg : string) (extra : list (string * PyVal))
| Sleep (seconds : Q)
| LockAcquire
| LockRelease.

(** ** services/payment_processor.py *)

Module payment_processor.

(** The attributes of a [PaymentProcessor] that change after construction,
    and the flag read from the environment. *)
Record PaymentProcessor : Type := {
  _slowdown_enabled : bool;
  _slowdown_active : bool;
  _slowdown_start_time : option Q;
  _next_slowdown_time : option Q
}.

(** Attributes that [__init__] assigns once and nothing reassigns. *)
Definition failure_rate : Q := 5 # 100.
Definition _slowdown_interval : Q := 900.
Definition _slowdown_duration : Q := 300.
Definition _slowdown_min_delay : Q := 2.
Definition _slowdown_max_delay : Q := 5.

(** [os.getenv("PAYMENT_SLOWDOWN_ENABLED", "false").lower() in
    ("true", "1", "yes")], with [env] the value of the variable when set. *)
Definition slowdown_enabled_of_env (env : option string) : bool :=
  let slowdown_env := lower (match env with Some v => v | None => "false" end) in
  String.eqb slowdown_env "true" || String.eqb slowdown_env "1"
  || String.eqb slowdown_env "yes".

(** [PaymentProcessor.__init__]; [now] is the reading of [time.time()]. *)
Definition __init__ (env : option string) (now : Q) : PaymentProcessor :=
  let enabled := slowdown_enabled_of_env env in
  {| _slowdown_enabled := enabled;
     _slowdown_active := false;
     _slowdown_start_time := None;
     _next_slowdown_time := if enabled then Some now else None |}.

(** *** The monad of methods *)

Definition Proc (A : Type) : Type :=
  PaymentProcessor -> A * PaymentProcessor * list Event.

Definition ret {A} (a : A) : Proc A := fun self => (a, self, []).

Definition bind {A B} (m : Proc A) (k : A -> Proc B) : Proc B :=
  fun self =>
    let '(a, self1, ev1) := m self in
    let '(b, self2, ev2) := k a self1 in
    (b, self2, (ev1 ++ ev2)%list).

Definition get : Proc PaymentProcessor := fun self => (self, self, []).
Definition emit (e : Event) : Proc unit := fun self => (tt, self, [e]).

Declare Scope proc_scope.
Delimit Scope proc_scope with proc.
Notation "x <- m ;; k" := (bind m (fun x => k))
  (at level 100, m at next level, right associativity) : proc_scope.
Notation "m ;; k" := (bind m (fun _ => k))
  (at level 100, right associativity) : proc_scope.

Definition value {A} (r : A * PaymentProcessor * list Event) : A := fst (fst r).
Definition after {A} (r : A * PaymentProcessor * list Event) : PaymentProcessor :=
  snd (fst r).
Definition events {A} (r : A * PaymentProcessor * list Event) : list Event := snd r.

(** Attribute assignments on [self]. *)
Definition set_active (b : bool) : Proc unit :=
  fun self =>
    (tt, {| _slowdown_enabled := _slowdown_enabled self;
            _slowdown_active := b;
            _slowdown_start_time := _slowdown_start_time self;
            _next_slowdown_time := _next_slowdown_time self |}, []).

Definition set_start_time (t : option Q) : Proc unit :=
  fun self =>
    (tt, {| _slowdown_enabled := _slowdown_enabled self;
            _slowdown_active := _slowdown_active self;
            _slowdown_start_time := t;
            _next_slowdown_time := _next_slowdown_time self |}, []).

Definition set_next_time (t : option Q) : Proc unit :=
  fun self =>
    (tt, {| _slowdown_enabled := _slowdown_enabled self;
            _slowdown_active := _slowdown_active self;
            _slowdown_start_time := _slowdown_start_time self;
            _next_slowdown_time := t |}, []).

(** [current_time >= t] behind the guard [t and ...]: the comparison is
    reached only when [t] is a float. *)
Definition reached (current_time : Q) (t : option Q) : bool :=
  match t with
  | None => false
  | Some x => Qle_bool x current_time
  end.

(** [elapsed >= self._slowdown_duration] with
    [elapsed = current_time - self._slowdown_start_time]. *)
Definition period_over (current_time : Q) (start : option Q) : bool :=
  match start with
  | None => false
  | Some st => Qle_bool _slowdown_duration (current_time - st)
  end.

(** [PaymentProcessor._check_and_update_slowdown]; [current_time] is the
    reading of [time.time()]. *)
Definition _check_and_update_slowdown (current_time : Q) : Proc unit :=
  (self <- get ;;
   if negb (_slowdown_enabled self) then ret tt
   else if negb (_slowdown_active self)
           && timestamp_truthy (_next_slowdown_time self)
           && reached current_time (_next_slowdown_time self)
   then
     set_active true ;;
     set_start_time (Some current_time) ;;
     emit (Log INFO "Payment slowdown period started"
             [("event", VStr "slowdown_started");
              ("duration_seconds", VFloat _slowdown_duration);
              ("expected_end_time", VFloat (current_time + _slowdown_duration))])
   else if _slowdown_active self && timestamp_truthy (_slowdown_start_time self)
   then
     if period_over current_time (_slowdown_start_time self)
     then
       set_active false ;;
       set_start_time None ;;
       set_next_time (Some (current_time + _slowdown_interval)) ;;
       emit (Log INFO "Payment slowdown period ended"
               [("event", VStr "slowdown_ended");
                ("next_slowdown_time", VFloat (current_time + _slowdown_interval))])
     else ret tt
   else ret tt)%proc.

(** [PaymentProcessor._get_slowdown_delay]; [u] is the value of [random()]
    inside [random.uniform]. *)
Definition _get_slowdown_delay (u : Q) : Proc Q :=
  (self <- get ;;
   if negb (_slowdown_enabled self) || negb (_slowdown_active self)
   then ret 0
   else ret (uniform _slowdown_min_delay _slowdown_max_delay u))%proc.

(** What one call of [process_payment] reads from outside, in order. *)
Record Readings : Type := {
  clock : Q;           (* time.time() in the state check *)
  delay_draw : Q;      (* random() inside random.uniform *)
  failure_draw : Q;    (* random.random() *)
  uuid4 : string       (* str(uuid.uuid4()) *)
}.

(** [PaymentProcessor.process_payment]. *)
Definition process_payment (rd : Readings)
    (customer_name customer_email : string) (amount : Q)
  : Proc (gmap string PyVal) :=
  (emit LockAcquire ;;
   _check_and_update_slowdown (clock rd) ;;
   slowdown_delay <- _get_slowdown_delay (delay_draw rd) ;;
   emit LockRelease ;;
   (if Qlt_bool 0 slowdown_delay
    then
      emit (Log INFO "Adding slowdown delay to payment processing"
              [("event", VStr "slowdown_delay_applied");
               ("delay_seconds", VFloat slowdown_delay);
               ("customer_name", VStr customer_name)]) ;;
      emit (Sleep slowdown_delay)
    else ret tt) ;;
   emit (Sleep (1 # 2)) ;;
   if Qlt_bool (failure_draw rd) failure_rate
   then
     emit (Log WARNING "Payment simulation failed"
             [("customer_name", VStr customer_name);
              ("amount", VFloat amount)]) ;;
     ret (<["success" := VBool false]>
          (<["reason" := VStr "Insufficient funds"]>
          (<["transaction_id" := VNone]> ∅)))
   else
     let transaction_id := uuid4 rd in
     emit (Log INFO "Payment processed successfully"
             [("customer_name", VStr customer_name);
              ("amount", VFloat amount);
              ("transaction_id", VStr transaction_id)]) ;;
     ret (<["success" := VBool true]>
          (<["transaction_id" := VStr transaction_id]>
          (<["amount" := VFloat amount]> ∅))))%proc.

End payment_processor.


(** ** models.py *)

Module models.

Module PaymentRequest.
Record t : Type := {
  customer_name : string;
  customer_email : option string;
  amount : Q
}.
End PaymentRequest.

Module PaymentResponse.
Record t : Type := {
  success : bool;
  transaction_id : option string;
  reason : option string;
  amount : option Q
}.
End PaymentResponse.

End models.

(** ** main.py *)

(** Exceptions, as the [except] clauses of the handler tell them apart:
    an [HTTPException], or any other instance of [Exception], of which only
    [str(e)] is used. *)
Inductive PyExn : Type :=
| HTTPException (status_code : Z) (detail : string)
| Exception (str_e : string).

Module main.

Import payment_processor models.

(** A coroutine of the service: a method computation that returns or
    raises. *)
Definition Coro (A : Type) : Type := Proc (PyExn + A).

Definition raise {A} (e : PyExn) : Coro A := ret (inl e).
Definition returns {A} (a : A) : Coro A := ret (inr a).

(** [try: body  except HTTPException: raise  except Exception as e: ...]
    of the payment route. *)
Definition try_except {A} (body : Coro A) : Coro A :=
  (r <- body ;;
   match r with
   | inr a => returns a
   | inl (HTTPException status_code detail) =>
       raise (HTTPException status_code detail)
   | inl (Exception str_e) =>
       emit (Log ERROR "Payment processing error" [("error", VStr str_e)]) ;;
       raise (HTTPException 500 ("Internal server error: " ++ str_e))
   end)%proc.

(** [x or <empty string>] for an optional string. *)
Definition or_empty (x : option string) : string :=
  match x with
  | Some e => if String.eqb e EmptyString then EmptyString else e
  | None => EmptyString
  end.

Section route.

(** [str(x)] of a float. *)
Variable float_str : Q -> string.

(** Validation of the [Optional[str]] and [Optional[float]] fields of
    [PaymentResponse] by pydantic. *)
Variable validate_optional_str : PyVal -> PyExn + option string.
Variable validate_optional_float : PyVal -> PyExn + option Q.

(** The text an f-string puts for a value. *)
Definition format (v : PyVal) : string :=
  match v with
  | VNone => "None"
  | VBool true => "True"
  | VBool false => "False"
  | VFloat q => float_str q
  | VStr s => s
  end.

(** [d.get(key)] and [d.get(key, default)]. *)
Definition dict_get (d : gmap string PyVal) (key : string) (default : PyVal) : PyVal :=
  match d !! key with
  | Some v => v
  | None => default
  end.

(** [PaymentResponse(success=True, transaction_id=..., amount=...)]. *)
Definition make_PaymentResponse (transaction_id amount : PyVal)
  : PyExn + PaymentResponse.t :=
  match validate_optional_str transaction_id with
  | inl e => inl e
  | inr tid =>
      match validate_optional_float amount with
      | inl e => inl e
      | inr amt =>
          inr {| PaymentResponse.success := true;
                 PaymentResponse.transaction_id := tid;
                 PaymentResponse.reason := None;
                 PaymentResponse.amount := amt |}
      end
  end.

(** The route [POST /api/payment], over the call it awaits: [call] stands
    for [payment_processor.process_payment(name, email, amount)]. *)
Definition process_payment_with
    (call : string -> string -> Q -> Coro (gmap string PyVal))
    (payment_request : PaymentRequest.t) : Coro PaymentResponse.t :=
  try_except
    (emit (Log INFO "Processing payment"
             [("customer_name", VStr (PaymentRequest.customer_name payment_request));
              ("amount", VFloat (PaymentRequest.amount payment_request))]) ;;
     r <- call (PaymentRequest.customer_name payment_request)
               (or_empty (PaymentRequest.customer_email payment_request))
               (PaymentRequest.amount payment_request) ;;
     match r with
     | inl e => raise e
     | inr result =>
         match result !! "success" with
         | None => raise (Exception "'success'")
         | Some ok =>
             if negb (truthy ok)
             then
               emit (Log WARNING "Payment failed"
                       [("customer_name",
                         VStr (PaymentRequest.customer_name payment_request));
                        ("amount", VFloat (PaymentRequest.amount payment_request));
                        ("reason", dict_get result "reason" VNone)]) ;;
               raise (HTTPException 402
                        ("Payment failed: "
                         ++ format (dict_get result "reason" (VStr "Unknown error"))))
             else
               ret (make_PaymentResponse
                      (dict_get result "transaction_id" VNone)
                      (dict_get result "amount" VNone))
         end
     end)%proc.

(** The route with the processor of the service behind it. *)
Definition process_payment (rd : Readings) (payment_request : PaymentRequest.t)
  : Coro PaymentResponse.t :=
  process_payment_with
    (fun customer_name customer_email amount =>
       (result <- payment_processor.process_payment rd customer_name
                    customer_email amount ;;
        returns result)%proc)
    payment_request.

(** Status of the HTTP response the framework sends for an outcome of the
    route. *)
Definition status_code_of {A} (r : PyExn + A) : Z :=
  match r with
  | inr _ => 200
  | inl (HTTPException status_code _) => status_code
  | inl (Exception _) => 500
  end.

End route.

End main.

Import payment_processor.

(** ** The state check as a function of (state, now) *)

(** State after one check at time [now]. *)
Definition check (now : Q) (self : PaymentProcessor) : PaymentProcessor :=
  after (_check_and_update_slowdown now self).

(** State after checks at the times of [times], first to last. *)
Definition checks (times : list Q) (self : PaymentProcessor) : PaymentProcessor :=
  fold_left (fun s t => check t s) times self.

(** The state a Normal-to-Slow transition at [now] leads to. *)
Definition started (now : Q) (self : PaymentProcessor) : PaymentProcessor :=
  {| _slowdown_enabled := _slowdown_enabled self;
     _slowdown_active := true;
     _slowdown_start_time := Some now;
     _next_slowdown_time := _next_slowdown_time self |}.

(** The state a Slow-to-Normal transition at [now] leads to. *)
Definition ended (now : Q) (self : PaymentProcessor) : PaymentProcessor :=
  {| _slowdown_enabled := _slowdown_enabled self;
     _slowdown_active := false;
     _slowdown_start_time := None;
     _next_slowdown_time := Some (now + _slowdown_interval) |}.

(** Every intermediate state of [checks times self] is in a slow period. *)
Fixpoint all_active (times : list Q) (self : PaymentProcessor) : bool :=
  match times with
  | [] => true
  | t :: rest => _slowdown_active (check t self) && all_active rest (check t self)
  end.

(** [active] holds exactly when a start timestamp is recorded. *)
Definition start_time_iff_active (self : PaymentProcessor) : Prop :=
  _slowdown_active self = true <-> _slowdown_start_time self <> None.

(** What a result dict carries. *)
Definition transaction_id_of (result : gmap string PyVal) : option string :=
  match result !! "transaction_id" with
  | Some (VStr s) => Some s
  | _ => None
  end.

Definition reason_of (result : gmap string PyVal) : option string :=
  match result !! "reason" with
  | Some (VStr s) => Some s
  | _ => None
  end.

(** The two result dicts of [process_payment]. *)
Definition decline_result : gmap string PyVal :=
  <["success" := VBool false]>
  (<["reason" := VStr "Insufficient funds"]>
  (<["transaction_id" := VNone]> ∅)).

Definition success_result (transaction_id : string) (amount : Q) : gmap string PyVal :=
  <["success" := VBool true]>
  (<["transaction_id" := VStr transaction_id]>
  (<["amount" := VFloat amount]> ∅)).

(** The sleeps of one call: the slowdown delay when it is positive, then
    the base delay. *)
Definition sleeps (evs : list Event) : list Q :=
  flat_map (fun e => match e with Sleep d => [d] | _ => [] end) evs.

(** Stand-in validators, for instances of the theorems on the route only:
    they take [None] and a value of the field's own type and refuse every
    other value with a fixed text. The validation of [PaymentResponse]
    itself accepts more (a numeric string or a bool for the float) and
    words its errors differently; the theorems are stated over any
    validators. *)
Definition strict_optional_str (v : PyVal) : PyExn + option string :=
  match v with
  | VNone => inr None
  | VStr s => inr (Some s)
  | _ => inl (Exception "Input should be a valid string")
  end.

Definition strict_optional_float (v : PyVal) : PyExn + option Q :=
  match v with
  | VNone => inr None
  | VFloat q => inr (Some q)
  | _ => inl (Exception "Input should be a valid number")
  end.

Definition is_lock_event (e : Event) : bool :=
  match e with
  | LockAcquire | LockRelease => true
  | _ => false
  end.

(** The request of the scenarios. *)
Definition ada : models.PaymentRequest.t :=
  {| models.PaymentRequest.customer_name := "Ada Lovelace";
     models.PaymentRequest.customer_email := None;
     models.PaymentRequest.amount := 45 # 10 |}.

(** ** The tasks of the service on the event loop

    [process_payment] and [monitor_slowdown_cycles] run as tasks that share
    the one [payment_processor] of [main.py] and its [_slowdown_lock]. A
    task is a program point; a step runs one task from its program point to
    the next. Any task that can run may be the next to run, which covers
    every order in which the event loop resumes tasks. *)

Module event_loop.

Import payment_processor.

(** Program points of [PaymentProcessor.process_payment]. *)
Inductive RequestPc : Type :=
| AtAcquire                         (* entering [async with self._slowdown_lock] *)
| AtCheck                           (* in the block, before [_check_and_update_slowdown] *)
| AtDelay (checked : PaymentProcessor)
                                    (* in the block, before [_get_slowdown_delay];
                                       [checked] records the state its check left *)
| AtRelease (slowdown_delay : Q)    (* leaving the block *)
| InSlowdownSleep (slowdown_delay : Q)  (* in [asyncio.sleep(slowdown_delay)] *)
| InBaseSleep                       (* in [asyncio.sleep(0.5)] *)
| Returned (result : gmap string PyVal).

(** Program points of the loop body of [monitor_slowdown_cycles]. *)
Inductive MonitorPc : Type :=
| MonInSleep                        (* in [asyncio.sleep(30)] *)
| MonAtAcquire                      (* entering [async with payment_processor._slowdown_lock] *)
| MonAtCheck                        (* in the block, before the check *)
| MonAtRelease.                     (* leaving the block *)

(** The arguments and readings of one payment call. *)
Record Call : Type := {
  readings : Readings;
  customer_name : string;
  customer_email : string;
  amount : Q
}.

(** A task: a payment call at a program point, or the monitor in its
    [iteration]-th round, reading [clock_at iteration] from [time.time()]. *)
Inductive Task : Type :=
| RequestTask (call : Call) (pc : RequestPc)
| MonitorTask (clock_at : nat -> Q) (iteration : nat) (pc : MonitorPc).

(** The process: the processor, whether its [_slowdown_lock] is locked,
    the tasks, and the events so far with the task that emitted each. *)
Record Loop : Type := {
  processor : PaymentProcessor;
  _slowdown_lock : bool;
  tasks : list Task;
  trace : list (nat * Event)
}.

Definition tagged (i : nat) (evs : list Event) : list (nat * Event) :=
  map (fun e => (i, e)) evs.

(** The lines of [process_payment] after the sleeps: the failure draw and
    the result. *)
Definition settle (c : Call) : gmap string PyVal * list Event :=
  if Qlt_bool (failure_draw (readings c)) failure_rate
  then
    (<["success" := VBool false]>
     (<["reason" := VStr "Insufficient funds"]>
     (<["transaction_id" := VNone]> ∅)),
     [Log WARNING "Payment simulation failed"
        [("customer_name", VStr (customer_name c));
         ("amount", VFloat (amount c))]])
  else
    (<["success" := VBool true]>
     (<["transaction_id" := VStr (uuid4 (readings c))]>
     (<["amount" := VFloat (amount c)]> ∅)),
     [Log INFO "Payment processed successfully"
        [("customer_name", VStr (customer_name c));
         ("amount", VFloat (amount c));
         ("transaction_id", VStr (uuid4 (readings c)))]]).

(** One step of a payment call at [pc]: the processor, the lock, the next
    program point and the events; [None] when the call cannot run. *)
Definition step_request (c : Call) (pc : RequestPc)
    (p : PaymentProcessor) (locked : bool)
  : option (PaymentProcessor * bool * RequestPc * list Event) :=
  match pc with
  | AtAcquire =>
      if locked then None else Some (p, true, AtCheck, [LockAcquire])
  | AtCheck =>
      let r := _check_and_update_slowdown (clock (readings c)) p in
      Some (after r, locked, AtDelay (after r), events r)
  | AtDelay _ =>
      let r := _get_slowdown_delay (delay_draw (readings c)) p in
      Some (after r, locked, AtRelease (value r), events r)
  | AtRelease slowdown_delay =>
      if Qlt_bool 0 slowdown_delay
      then Some (p, false, InSlowdownSleep slowdown_delay,
                 [LockRelease;
                  Log INFO "Adding slowdown delay to payment processing"
                    [("event", VStr "slowdown_delay_applied");
                     ("delay_seconds", VFloat slowdown_delay);
                     ("customer_name", VStr (customer_name c))]])
      else Some (p, false, InBaseSleep, [LockRelease])
  | InSlowdownSleep slowdown_delay =>
      Some (p, locked, InBaseSleep, [Sleep slowdown_delay])
  | InBaseSleep =>
      let '(result, evs) := settle c in
      Some (p, locked, Returned result, (Sleep (1 # 2) :: evs)%list)
  | Returned _ => None
  end.

(** One step of the monitor at [pc] in round [iteration]. *)
Definition step_monitor (clock_at : nat -> Q) (iteration : nat) (pc : MonitorPc)
    (p : PaymentProcessor) (locked : bool)
  : option (PaymentProcessor * bool * (nat * MonitorPc) * list Event) :=
  match pc with
  | MonInSleep => Some (p, locked, (iteration, MonAtAcquire), [Sleep 30])
  | MonAtAcquire =>
      if locked then None
      else Some (p, true, (iteration, MonAtCheck), [LockAcquire])
  | MonAtCheck =>
      let r := _check_and_update_slowdown (clock_at iteration) p in
      Some (after r, locked, (iteration, MonAtRelease), events r)
  | MonAtRelease =>
      Some (p, false, (S iteration, MonInSleep), [LockRelease])
  end.

(** The loop runs task [i] for one step. *)
Definition step (i : nat) (w : Loop) : option Loop :=
  match tasks w !! i with
  | None => None
  | Some (RequestTask c pc) =>
      match step_request c pc (processor w) (_slowdown_lock w) with
      | None => None
      | Some (p, locked, pc', evs) =>
          Some {| processor := p;
                  _slowdown_lock := locked;
                  tasks := <[i := RequestTask c pc']> (tasks w);
                  trace := (trace w ++ tagged i evs)%list |}
      end
  | Some (MonitorTask clock_at iteration pc) =>
      match step_monitor clock_at iteration pc (processor w) (_slowdown_lock w) with
      | None => None
      | Some (p, locked, (iteration', pc'), evs) =>
          Some {| processor := p;
                  _slowdown_lock := locked;
                  tasks := <[i := MonitorTask clock_at iteration' pc']> (tasks w);
                  trace := (trace w ++ tagged i evs)%list |}
      end
  end.

(** The loop runs the tasks named by [schedule], in order. *)
Fixpoint run (schedule : list nat) (w : Loop) : option Loop :=
  match schedule with
  | [] => Some w
  | i :: rest =>
      match step i w with
      | None => None
      | Some w' => run rest w'
      end
  end.

(** The process after [startup_event]: the processor as constructed, the
    lock free, one task per payment call, and the monitor when the feature
    is enabled. *)
Definition startup (env : option string) (now : Q) (calls : list Call)
    (clock_at : nat -> Q) : Loop :=
  {| processor := __init__ env now;
     _slowdown_lock := false;
     tasks :=
       (map (fun c => RequestTask c AtAcquire) calls
        ++ (if slowdown_enabled_of_env env
            then [MonitorTask clock_at 0 MonInSleep]
            else []))%list;
     trace := [] |}.

Inductive reachable (w0 : Loop) : Loop -> Prop :=
| reachable_start : reachable w0 w0
| reachable_step (w w' : Loop) (i : nat) :
    reachable w0 w -> step i w = Some w' -> reachable w0 w'.

(** A task is in its critical section: between entering and leaving the
    [async with] block. *)
Definition in_critical_section (t : Task) : bool :=
  match t with
  | RequestTask _ (AtCheck | AtDelay _ | AtRelease _) => true
  | MonitorTask _ _ (MonAtCheck | MonAtRelease) => true
  | _ => false
  end.

(** A task is suspended in [asyncio.sleep]. *)
Definition asleep (t : Task) : bool :=
  match t with
  | RequestTask _ (InSlowdownSleep _ | InBaseSleep) => true
  | MonitorTask _ _ MonInSleep => true
  | _ => false
  end.

(** A task is waiting to enter its [async with] block. *)
Definition at_acquire (t : Task) : bool :=
  match t with
  | RequestTask _ AtAcquire => true
  | MonitorTask _ _ MonAtAcquire => true
  | _ => false
  end.

(** Number of tasks in their critical section. *)
Fixpoint inside (ts : list Task) : nat :=
  match ts with
  | [] => 0%nat
  | t :: rest => ((if in_critical_section t then 1 else 0) + inside rest)%nat
  end.

Definition bit (b : bool) : nat := if b then 1%nat else 0%nat.

(** The lock is locked exactly when one task is in its critical section,
    and a call that has run its check finds the state its check left. *)
Definition lock_invariant (w : Loop) : Prop :=
  inside (tasks w) = bit (_slowdown_lock w)
  /\ (forall i c checked,
        tasks w !! i = Some (RequestTask c (AtDelay checked)) ->
        processor w = checked).

End event_loop.

(** ** The state machine with its guards read as tests for [None]

    [spec_check] is the check as the design of the state machine words it:
    a timestamp counts when it is set. It is compared below with [check],
    the check of the source, whose guards test the timestamp for truth. *)

Definition spec_check (now : Q) (self : PaymentProcessor) : PaymentProcessor :=
  if negb (_slowdown_enabled self) then self
  else if negb (_slowdown_active self) && reached now (_next_slowdown_time self)
  then started now self
  else if _slowdown_active self && period_over now (_slowdown_start_time self)
  then ended now self
  else self.

Definition spec_checks (times : list Q) (self : PaymentProcessor) : PaymentProcessor :=
  fold_left (fun s t => spec_check t s) times self.

(** Every timestamp the processor holds is after the epoch. *)
Definition timestamps_positive (self : PaymentProcessor) : Prop :=
  (forall t, _slowdown_start_time self = Some t -> 0 < t)
  /\ (forall t, _next_slowdown_time self = Some t -> 0 < t).

(** ** Payment calls one after the other *)

(** The processor after the calls of [calls], each run to its return before
    the next starts, and their results in order. *)
Definition serve (calls : list event_loop.Call) (self : PaymentProcessor)
  : PaymentProcessor * list (gmap string PyVal) :=
  fold_left
    (fun acc c =>
       let r := payment_processor.process_payment (event_loop.readings c)
                  (event_loop.customer_name c) (event_loop.customer_email c)
                  (event_loop.amount c) (fst acc) in
       (after r, (snd acc ++ [value r])%list))
    calls (self, []).

(** Seconds a call spends in [asyncio.sleep]. *)
Definition total_sleep (evs : list Event) : Q :=
  fold_right Qplus 0 (sleeps evs).

(** ** main.py: the monitor task and startup *)

(** What the [try] body of one round of [monitor_slowdown_cycles] can
    raise. *)
Inductive MonitorExn : Type :=
| CancelledError
| OtherException (str_e : string).

(** What happens to one round of the monitor: both awaits return and
    [time.time()] reads [now], or the task is cancelled while suspended in
    [asyncio.sleep(30)] or while waiting for the lock. *)
Inductive Round : Type :=
| Tick (now : Q)
| CancelledInSleep
| CancelledAtLock.

(** The [try] body of [monitor_slowdown_cycles]. *)
Definition monitor_round (r : Round) : Proc (MonitorExn + unit) :=
  match r with
  | CancelledInSleep => ret (inl CancelledError)
  | CancelledAtLock => (emit (Sleep 30) ;; ret (inl CancelledError))%proc
  | Tick now =>
      (emit (Sleep 30) ;;
       emit LockAcquire ;;
       _check_and_update_slowdown now ;;
       emit LockRelease ;;
       ret (inr tt))%proc
  end.

(** [monitor_slowdown_cycles], for as many rounds of its [while True] as
    [rounds] describes. The value tells whether the loop was left. *)
Fixpoint monitor_slowdown_cycles (rounds : list Round) : Proc bool :=
  match rounds with
  | [] => ret false
  | r :: rest =>
      (x <- monitor_round r ;;
       match x with
       | inr _ => monitor_slowdown_cycles rest
       | inl CancelledError =>
           emit (Log INFO "Slowdown monitoring task cancelled" []) ;;
           ret true
       | inl (OtherException str_e) =>
           emit (Log ERROR "Error in slowdown monitoring task"
                   [("error", VStr str_e)]) ;;
           monitor_slowdown_cycles rest
       end)%proc
  end.

(** The clock readings of the rounds before the first cancellation. *)
Fixpoint ticks (rounds : list Round) : list Q :=
  match rounds with
  | Tick now :: rest => now :: ticks rest
  | _ => []
  end.

Definition is_cancelled (r : Round) : bool :=
  match r with
  | Tick _ => false
  | _ => true
  end.

Definition is_error_log (e : Event) : bool :=
  match e with
  | Log ERROR _ _ => true
  | _ => false
  end.


(** ** Observations on the tasks of the event loop *)

Definition is_monitor (t : event_loop.Task) : bool :=
  match t with
  | event_loop.MonitorTask _ _ _ => true
  | _ => false
  end.

Definition has_returned (t : event_loop.Task) : bool :=
  match t with
  | event_loop.RequestTask _ (event_loop.Returned _) => true
  | _ => false
  end.

(** The call of a payment task. *)
Definition call_of (t : event_loop.Task) : option event_loop.Call :=
  match t with
  | event_loop.RequestTask c _ => Some c
  | event_loop.MonitorTask _ _ _ => None
  end.

(** A task is in, or about to enter, the slowdown sleep. *)
Definition slowed (t : event_loop.Task) : bool :=
  match t with
  | event_loop.RequestTask _ (event_loop.AtRelease d) => Qlt_bool 0 d
  | event_loop.RequestTask _ (event_loop.InSlowdownSleep _) => true
  | _ => false
  end.

(** A call that returned holds the result its own draws determine. *)
Definition result_settled (t : event_loop.Task) : Prop :=
  match t with
  | event_loop.RequestTask c (event_loop.Returned result) =>
      result = if Qlt_bool (failure_draw (event_loop.readings c)) failure_rate
               then decline_result
               else success_result (uuid4 (event_loop.readings c))
                      (event_loop.amount c)
  | _ => True
  end.

(** Awaited calls for the edge cases of the route: one that returns the
    dict [result], one that raises [e]. *)
Definition call_returning (result : gmap string PyVal)
  : string -> string -> Q -> main.Coro (gmap string PyVal) :=
  fun _ _ _ => main.returns result.

Definition call_raising (e : PyExn)
  : string -> string -> Q -> main.Coro (gmap string PyVal) :=
  fun _ _ _ => main.raise e.
Ltac unfold_proc :=
  unfold check, _check_and_update_slowdown, _get_slowdown_delay, after, value,
    events, bind, get, ret, emit, set_active, set_start_time,
    set_next_time in *.

Lemma Qlt_bool_iff (x y : Q) : Qlt_bool x y = true <-> x < y.
Proof.
  unfold Qlt_bool. rewrite negb_true_iff.
  split; intros H.
  - apply Qnot_le_lt. intros Hle. apply Qle_bool_iff in Hle. congruence.
  - destruct (Qle_bool y x) eqn:E; [|reflexivity].
    apply Qle_bool_iff in E. lra.
Qed.

Lemma float_truthy_iff (x : Q) : float_truthy x = true <-> ~ x == 0.
Proof.
  unfold float_truthy. rewrite negb_true_iff.
  split; intros H.
  - intros Heq. apply Qeq_bool_iff in Heq. congruence.
  - destruct (Qeq_bool x 0) eqn:E; [|reflexivity].
    apply Qeq_bool_iff in E. contradiction.
Qed.

(** The check computes one of three states, chosen by the guards of the
    source. *)
Lemma check_cases (now : Q) (s : PaymentProcessor) :
  check now s =
    if negb (_slowdown_enabled s) then s
    else if negb (_slowdown_active s)
            && timestamp_truthy (_next_slowdown_time s)
            && reached now (_next_slowdown_time s)
    then started now s
    else if _slowdown_active s && timestamp_truthy (_slowdown_start_time s)
            && period_over now (_slowdown_start_time s)
    then ended now s
    else s.
Proof.
  unfold_proc. destruct s as [en ac st nx]; simpl.
  destruct en; simpl; [|reflexivity].
  destruct ac; simpl.
  - destruct (timestamp_truthy st); simpl; [|reflexivity].
    destruct (period_over now st); reflexivity.
  - destruct (timestamp_truthy nx); simpl; [|reflexivity].
    destruct (reached now nx); reflexivity.
Qed.

(** *** The guards, in terms of the order on timestamps *)

Lemma reached_iff (now : Q) (t : option Q) :
  reached now t = true <-> exists x, t = Some x /\ x <= now.
Proof.
  destruct t as [x|]; simpl.
  - rewrite Qle_bool_iff. split; [eauto | intros (y & [= ->] & H); exact H].
  - split; [discriminate | intros (y & [=] & _)].
Qed.

Lemma period_over_iff (now : Q) (start : option Q) :
  period_over now start = true <->
  exists st, start = Some st /\ _slowdown_duration <= now - st.
Proof.
  destruct start as [st|]; simpl.
  - rewrite Qle_bool_iff. split; [eauto | intros (y & [= ->] & H); exact H].
  - split; [discriminate | intros (y & [=] & _)].
Qed.

Lemma timestamp_truthy_iff (t : option Q) :
  timestamp_truthy t = true <-> exists x, t = Some x /\ ~ x == 0.
Proof.
  destruct t as [x|]; simpl.
  - rewrite float_truthy_iff. split; [eauto | intros (y & [= ->] & H); exact H].
  - split; [discriminate | intros (y & [=] & _)].
Qed.

(** *** The three paths of the check *)

Lemma check_disabled (now : Q) (s : PaymentProcessor) :
  _slowdown_enabled s = false -> check now s = s.
Proof. intros H. rewrite check_cases, H. reflexivity. Qed.

Lemma check_start (now nxt : Q) (s : PaymentProcessor) :
  _slowdown_enabled s = true -> _slowdown_active s = false ->
  _next_slowdown_time s = Some nxt -> ~ nxt == 0 -> nxt <= now ->
  check now s = started now s.
Proof.
  intros He Ha Hn Hnz Hle. rewrite check_cases, He, Ha, Hn. simpl.
  apply float_truthy_iff in Hnz. apply Qle_bool_iff in Hle.
  rewrite Hnz, Hle. reflexivity.
Qed.

Lemma check_end (now st : Q) (s : PaymentProcessor) :
  _slowdown_enabled s = true -> _slowdown_active s = true ->
  _slowdown_start_time s = Some st -> ~ st == 0 ->
  _slowdown_duration <= now - st ->
  check now s = ended now s.
Proof.
  intros He Ha Hs Hnz Hle. rewrite check_cases, He, Ha, Hs. simpl.
  apply float_truthy_iff in Hnz. apply Qle_bool_iff in Hle.
  rewrite Hnz, Hle. reflexivity.
Qed.

Lemma check_waiting (now : Q) (s : PaymentProcessor) :
  _slowdown_active s = false ->
  (forall nxt, _next_slowdown_time s = Some nxt -> now < nxt) ->
  check now s = s.
Proof.
  intros Ha Hn. rewrite check_cases, Ha. simpl.
  destruct (negb (_slowdown_enabled s)); [reflexivity|].
  destruct (reached now (_next_slowdown_time s)) eqn:E.
  - apply reached_iff in E as (x & Hx & Hle). specialize (Hn x Hx). lra.
  - rewrite andb_false_r. reflexivity.
Qed.

Lemma check_slow (now : Q) (s : PaymentProcessor) :
  _slowdown_active s = true ->
  (forall st, _slowdown_start_time s = Some st -> now - st < _slowdown_duration) ->
  check now s = s.
Proof.
  intros Ha Hs. rewrite check_cases, Ha. simpl.
  destruct (negb (_slowdown_enabled s)); [reflexivity|].
  destruct (period_over now (_slowdown_start_time s)) eqn:E.
  - apply period_over_iff in E as (x & Hx & Hle). specialize (Hs x Hx). lra.
  - rewrite andb_false_r. reflexivity.
Qed.

(** The check never changes [enabled]. *)
Lemma check_enabled (now : Q) (s : PaymentProcessor) :
  _slowdown_enabled (check now s) = _slowdown_enabled s.
Proof.
  rewrite check_cases.
  repeat match goal with |- context [if ?b then _ else _] => destruct b end;
    reflexivity.
Qed.

(** Each check is a start, an end, or leaves the state as it is. *)
Lemma check_trichotomy (now : Q) (s : PaymentProcessor) :
  (check now s = s)
  \/ (_slowdown_enabled s = true /\ _slowdown_active s = false
      /\ reached now (_next_slowdown_time s) = true /\ check now s = started now s)
  \/ (_slowdown_enabled s = true /\ _slowdown_active s = true
      /\ period_over now (_slowdown_start_time s) = true /\ check now s = ended now s).
Proof.
  rewrite check_cases.
  destruct (_slowdown_enabled s); simpl; [|left; reflexivity].
  destruct (_slowdown_active s); simpl.
  - destruct (timestamp_truthy (_slowdown_start_time s)); simpl; [|left; reflexivity].
    destruct (period_over now (_slowdown_start_time s)); [|left; reflexivity].
    right; right. repeat split.
  - destruct (timestamp_truthy (_next_slowdown_time s)); simpl; [|left; reflexivity].
    destruct (reached now (_next_slowdown_time s)); [|left; reflexivity].
    right; left. repeat split.
Qed.

Lemma checks_cons (t : Q) (times : list Q) (s : PaymentProcessor) :
  checks (t :: times) s = checks times (check t s).
Proof. reflexivity. Qed.

Lemma checks_disabled (times : list Q) (s : PaymentProcessor) :
  _slowdown_enabled s = false -> checks times s = s.
Proof.
  intros H. induction times as [|t times IH]; [reflexivity|].
  rewrite checks_cons, check_disabled; assumption.
Qed.

(** The delay read leaves the processor as it is and emits nothing. *)
Lemma get_slowdown_delay_pure (u : Q) (p : PaymentProcessor) :
  after (_get_slowdown_delay u p) = p /\ events (_get_slowdown_delay u p) = [].
Proof.
  unfold_proc.
  destruct (negb (_slowdown_enabled p) || negb (_slowdown_active p));
    split; reflexivity.
Qed.

(** ** Facts on the event loop *)

Section event_loop_facts.

Import event_loop.

Lemma inside_insert (ts : list Task) (i : nat) (t t' : Task) :
  ts !! i = Some t ->
  (inside (<[i := t']> ts) + bit (in_critical_section t)
   = inside ts + bit (in_critical_section t'))%nat.
Proof.
  revert i. induction ts as [|a ts IH]; intros i Hi; [discriminate Hi|].
  destruct i as [|i]; simpl in *.
  - injection Hi as ->. unfold bit. lia.
  - specialize (IH i Hi). lia.
Qed.

Lemma inside_lookup (ts : list Task) (i : nat) (t : Task) :
  ts !! i = Some t -> in_critical_section t = true -> (1 <= inside ts)%nat.
Proof.
  revert i. induction ts as [|a ts IH]; intros i Hi Ht; [discriminate Hi|].
  destruct i as [|i]; simpl in *.
  - injection Hi as ->. rewrite Ht. lia.
  - specialize (IH i Hi Ht). lia.
Qed.

Lemma inside_two (ts : list Task) (i j : nat) (ti tj : Task) :
  i <> j -> ts !! i = Some ti -> ts !! j = Some tj ->
  in_critical_section ti = true -> in_critical_section tj = true ->
  (2 <= inside ts)%nat.
Proof.
  revert i j. induction ts as [|a ts IH]; intros i j Hne Hi Hj Hti Htj;
    [discriminate Hi|].
  destruct i as [|i], j as [|j]; simpl in *.
  - contradiction Hne; reflexivity.
  - injection Hi as ->. rewrite Hti.
    pose proof (inside_lookup ts j tj Hj Htj). lia.
  - injection Hj as ->. rewrite Htj.
    pose proof (inside_lookup ts i ti Hi Hti). lia.
  - assert (i <> j) by congruence.
    specialize (IH i j H Hi Hj Hti Htj). lia.
Qed.

Lemma inside_none (ts : list Task) :
  (forall i t, ts !! i = Some t -> in_critical_section t = false) ->
  inside ts = 0%nat.
Proof.
  induction ts as [|a ts IH]; intros H; [reflexivity|]. simpl.
  rewrite (H 0%nat a eq_refl). simpl. apply IH.
  intros i t Hi. apply (H (S i) t Hi).
Qed.

(** What a step of task [i] does, read off [step]. *)
Lemma step_inversion (i : nat) (w w' : Loop) :
  step i w = Some w' ->
  exists t t',
    tasks w !! i = Some t
    /\ tasks w' = <[i := t']> (tasks w)
    /\ (forall c checked, t' = RequestTask c (AtDelay checked) ->
          processor w' = checked)
    /\ ((at_acquire t = true /\ in_critical_section t = false
         /\ in_critical_section t' = true
         /\ _slowdown_lock w = false /\ _slowdown_lock w' = true
         /\ processor w' = processor w)
        \/ (in_critical_section t = true /\ in_critical_section t' = true
            /\ _slowdown_lock w' = _slowdown_lock w)
        \/ (in_critical_section t = true /\ in_critical_section t' = false
            /\ _slowdown_lock w' = false /\ processor w' = processor w
            /\ asleep t' = true)
        \/ (in_critical_section t = false /\ at_acquire t = false
            /\ in_critical_section t' = false
            /\ _slowdown_lock w' = _slowdown_lock w
            /\ processor w' = processor w)).
Proof.
  unfold step. destruct (tasks w !! i) as [t|] eqn:Hi; [|discriminate].
  destruct t as [c pc | clock_at iteration pc]; destruct pc; simpl;
    try discriminate;
    repeat match goal with
      | |- context [if ?b then _ else _] => destruct b eqn:?; simpl
      | |- context [let '(_, _) := ?x in _] => destruct x; simpl
      end;
    try discriminate;
    intros [= <-]; simpl;
    (eexists _, _; split; [reflexivity|]; split; [reflexivity|]); simpl;
    (split; [intros ? ? [=]; subst; reflexivity|]).
  all: try (left; repeat split; assumption).
  all: try (right; left; repeat split; congruence).
  all: try (right; right; left; repeat split; congruence).
  all: try (right; right; right; repeat split; congruence).
Qed.

Lemma lock_invariant_step (i : nat) (w w' : Loop) :
  lock_invariant w -> step i w = Some w' -> lock_invariant w'.
Proof.
  intros [Hcount Hsnap] Hstep.
  destruct (step_inversion i w w' Hstep) as (t & t' & Hi & Hts & Hnew & Hcase).
  pose proof (inside_insert (tasks w) i t t' Hi) as Hins.
  rewrite <- Hts in Hins.
  assert (Hlen : (i < length (tasks w))%nat) by (eapply lookup_lt_Some; eauto).
  split.
  - destruct Hcase as [(_ & Hc & Hc' & Hl & Hl' & _)
                      | [(Hc & Hc' & Hl')
                      | [(Hc & Hc' & Hl' & _)
                      | (Hc & _ & Hc' & Hl' & _)]]].
    + rewrite Hc, Hc', Hcount, Hl in Hins. rewrite Hl'. simpl in *. lia.
    + rewrite Hc, Hc', Hcount in Hins. rewrite Hl'. lia.
    + pose proof (inside_lookup _ _ _ Hi Hc) as Hge.
      rewrite Hc, Hc', Hcount in Hins. rewrite Hl'.
      rewrite Hcount in Hge. destruct (_slowdown_lock w); simpl in *; lia.
    + rewrite Hc, Hc', Hcount in Hins. rewrite Hl'. lia.
  - intros j c checked Hj. rewrite Hts in Hj.
    destruct (Nat.eq_dec i j) as [<- | Hne].
    + rewrite list_lookup_insert_eq in Hj by exact Hlen.
      injection Hj as ->. eapply Hnew. reflexivity.
    + rewrite list_lookup_insert_ne in Hj by exact Hne.
      specialize (Hsnap j c checked Hj).
      assert (Hlocked : _slowdown_lock w = true /\ in_critical_section t = false).
      { pose proof (inside_lookup _ _ _ Hj eq_refl) as Hge.
        rewrite Hcount in Hge.
        destruct (_slowdown_lock w); simpl in Hge; [|lia].
        split; [reflexivity|].
        destruct (in_critical_section t) eqn:Hc; [|reflexivity].
        pose proof (inside_two (tasks w) i j t _ Hne Hi Hj Hc eq_refl) as H2.
        rewrite Hcount in H2. simpl in H2. lia. }
      destruct Hlocked as [Hl Hout].
      destruct Hcase as [(_ & _ & _ & Hfree & _)
                        | [(Hc & _)
                        | [(Hc & _)
                        | (_ & _ & _ & _ & Hp)]]]; try congruence.
Qed.

Lemma lock_invariant_reachable (w0 w : Loop) :
  lock_invariant w0 -> reachable w0 w -> lock_invariant w.
Proof.
  intros H0 Hr. induction Hr as [|w w' i _ IH Hstep]; [exact H0|].
  eapply lock_invariant_step; eauto.
Qed.

Lemma lock_invariant_startup (env : option string) (now : Q) (calls : list Call)
    (clock_at : nat -> Q) :
  lock_invariant (startup env now calls clock_at).
Proof.
  split.
  - apply inside_none. intros i t Hi. simpl in Hi.
    apply list_elem_of_lookup_2 in Hi. apply elem_of_app in Hi as [Hi | Hi].
    + apply list_elem_of_In, in_map_iff in Hi as (c & <- & _). reflexivity.
    + destruct (slowdown_enabled_of_env env).
      * apply list_elem_of_In in Hi. destruct Hi as [<- | []]. reflexivity.
      * apply list_elem_of_In in Hi. destruct Hi.
  - intros i c checked Hi. simpl in Hi. exfalso.
    apply list_elem_of_lookup_2 in Hi. apply elem_of_app in Hi as [Hi | Hi].
    + apply list_elem_of_In, in_map_iff in Hi as (c' & [=] & _).
    + destruct (slowdown_enabled_of_env env);
        apply list_elem_of_In in Hi; [destruct Hi as [[=] | []] | destruct Hi].
Qed.

Lemma run_reachable (schedule : list nat) (w0 w w' : Loop) :
  reachable w0 w -> run schedule w = Some w' -> reachable w0 w'.
Proof.
  revert w. induction schedule as [|i rest IH]; intros w Hr Hrun; simpl in Hrun.
  - injection Hrun as <-. exact Hr.
  - destruct (step i w) as [w1|] eqn:Hs; [|discriminate].
    eapply IH; [|exact Hrun]. eapply reachable_step; eauto.
Qed.

Local Opaque _check_and_update_slowdown _get_slowdown_delay.

(** A payment call that runs from entering the lock to its return with no
    other task in between does what [process_payment] does: same result,
    same processor afterwards, same events. *)
Lemma request_alone (i : nat) (w : Loop) (c : Call) :
  tasks w !! i = Some (RequestTask c AtAcquire) ->
  _slowdown_lock w = false ->
  let r := payment_processor.process_payment (readings c) (customer_name c)
             (customer_email c) (amount c) (processor w) in
  exists n,
    run (repeat i n) w
    = Some {| processor := after r;
              _slowdown_lock := false;
              tasks := <[i := RequestTask c (Returned (value r))]> (tasks w);
              trace := (trace w ++ tagged i (events r))%list |}.
Proof.
  destruct w as [p l ts tr]; simpl. intros Hi ->.
  assert (Hlen : (i < length ts)%nat) by (eapply lookup_lt_Some; eauto).
  pose proof (get_slowdown_delay_pure (delay_draw (readings c))
                (after (_check_and_update_slowdown (clock (readings c)) p)))
    as [Hp2 Hev2].
  unfold payment_processor.process_payment, bind, emit, ret, value, after,
    events in *.
  destruct (_check_and_update_slowdown (clock (readings c)) p)
    as [[[] p1] ev1] eqn:Hcheck.
  simpl in Hp2, Hev2.
  destruct (_get_slowdown_delay (delay_draw (readings c)) p1)
    as [[d p2] ev2] eqn:Hdelay.
  simpl in Hp2, Hev2. subst p2 ev2.
  exists (if Qlt_bool 0 d then 6%nat else 5%nat).
  destruct (Qlt_bool 0 d) eqn:Hd; simpl;
    unfold step, step_request, settle; simpl;
    repeat (rewrite ?list_insert_insert_eq;
            rewrite ?Hi, ?list_lookup_insert_eq by exact Hlen; simpl;
            rewrite ?Hcheck, ?Hdelay, ?Hd; unfold after, value, events; simpl);
    destruct (Qlt_bool (failure_draw (readings c)) failure_rate); simpl;
    rewrite ?list_insert_insert_eq;
    unfold tagged; rewrite ?map_app, <- ?app_assoc; simpl;
    rewrite ?app_nil_r; reflexivity.
Qed.

Local Transparent _check_and_update_slowdown _get_slowdown_delay.

End event_loop_facts.

(** ** Payment outcome *)

Lemma process_payment_value (rd : Readings) (customer_name customer_email : string)
    (amount : Q) (self : PaymentProcessor) :
  value (payment_processor.process_payment rd customer_name customer_email amount self) =
    if Qlt_bool (failure_draw rd) failure_rate
    then decline_result
    else success_result (uuid4 rd) amount.
Proof.
  unfold payment_processor.process_payment. unfold_proc.
  destruct (negb (_slowdown_enabled self)); simpl;
    repeat match goal with
      | |- context [if ?b then _ else _] => destruct b; simpl
      end; reflexivity.
Qed.

(** C1. Every call of [process_payment] returns one of two results, chosen
    by the failure draw alone: below 0.05 the decline, with [success] false,
    the reason "Insufficient funds" and [None] as transaction id; otherwise
    the success, with [success] true, the identifier that [uuid4] produced
    in this call and the amount it was called with. No result carries both
    an identifier and a reason. *)
Theorem process_payment_decline_or_success
    (rd : Readings) (customer_name customer_email : string) (amount : Q)
    (self : PaymentProcessor) :
  let result :=
    value (payment_processor.process_payment rd customer_name customer_email
             amount self) in
  (failure_draw rd < 5 # 100 <->
     result !! "success" = Some (VBool false)
     /\ result !! "reason" = Some (VStr "Insufficient funds")
     /\ result !! "transaction_id" = Some VNone
     /\ transaction_id_of result = None)
  /\ (5 # 100 <= failure_draw rd <->
     result !! "success" = Some (VBool true)
     /\ result !! "transaction_id" = Some (VStr (uuid4 rd))
     /\ result !! "amount" = Some (VFloat amount)
     /\ reason_of result = None)
  /\ (transaction_id_of result = None \/ reason_of result = None).
Proof.
  intros result. subst result. rewrite process_payment_value.
  destruct (Qlt_bool (failure_draw rd) failure_rate) eqn:E.
  - apply Qlt_bool_iff in E. unfold failure_rate in E.
    split; [|split].
    + split; [intros _; repeat split | intros _; exact E].
    + split; [intros H; lra | intros (H & _); discriminate H].
    + left; reflexivity.
  - assert (Hge : 5 # 100 <= failure_draw rd).
    { apply Qnot_lt_le. intros H. apply Qlt_bool_iff in H.
      unfold failure_rate in E. congruence. }
    split; [|split].
    + split; [intros H; lra | intros (H & _); discriminate H].
    + split; [intros _; repeat split | intros _; exact Hge].
    + right; reflexivity.
Qed.

(** ** The state check *)

Lemma timestamp_truthy_off_zero (x : option Q) :
  (forall t, x = Some t -> ~ t == 0) ->
  timestamp_truthy x = match x with Some _ => true | None => false end.
Proof.
  intros H. destruct x as [q|]; [|reflexivity]. simpl.
  apply float_truthy_iff. apply H. reflexivity.
Qed.

Lemma check_spec_check_off_zero (now : Q) (s : PaymentProcessor) :
  (forall t, _next_slowdown_time s = Some t -> ~ t == 0) ->
  (forall t, _slowdown_start_time s = Some t -> ~ t == 0) ->
  check now s = spec_check now s.
Proof.
  intros Hn Hs. rewrite check_cases. unfold spec_check.
  rewrite (timestamp_truthy_off_zero _ Hs), (timestamp_truthy_off_zero _ Hn).
  destruct (_slowdown_start_time s), (_next_slowdown_time s); simpl;
    rewrite ?andb_true_r, ?andb_false_r; reflexivity.
Qed.

(** C2. The timestamps a processor holds are readings of [time.time()], or
    such a reading plus 900, and so are not the zero timestamp. On every
    such state the check, as a function of the state and of [now], performs
    exactly the transitions of the state machine. When the processor is
    enabled, not active, and [now] has reached the next slowdown time, it
    sets [active] and records [now] as start time, and changes nothing
    else. When the processor is active and 300 s or more have passed since
    the start time, it clears [active] and the start time and sets the next
    slowdown time to [now] plus 900. In every other case, and whenever the
    feature is disabled, it leaves the state as it is. So the check is the
    check of the state machine, [spec_check]. *)
Theorem check_transitions_off_zero (now : Q) (s : PaymentProcessor) :
  (forall t, _next_slowdown_time s = Some t -> ~ t == 0) ->
  (forall t, _slowdown_start_time s = Some t -> ~ t == 0) ->
  let start_due :=
    _slowdown_enabled s = true /\ _slowdown_active s = false
    /\ exists nxt, _next_slowdown_time s = Some nxt /\ nxt <= now in
  let end_due :=
    _slowdown_enabled s = true /\ _slowdown_active s = true
    /\ exists st, _slowdown_start_time s = Some st /\ 300 <= now - st in
  (start_due ->
     check now s = started now s
     /\ _slowdown_active (check now s) = true
     /\ _slowdown_start_time (check now s) = Some now
     /\ _next_slowdown_time (check now s) = _next_slowdown_time s)
  /\ (end_due ->
        check now s = ended now s
        /\ _slowdown_active (check now s) = false
        /\ _slowdown_start_time (check now s) = None
        /\ _next_slowdown_time (check now s) = Some (now + 900))
  /\ (~ start_due -> ~ end_due -> check now s = s)
  /\ (_slowdown_enabled s = false -> check now s = s)
  /\ check now s = spec_check now s.
Proof.
  intros Hn Hs start_due end_due. subst start_due end_due.
  split; [|split; [|split; [|split]]].
  - intros (He & Ha & nxt & Hnx & Hle).
    assert (Hc : check now s = started now s).
    { apply (check_start now nxt); auto. }
    rewrite Hc. repeat split.
  - intros (He & Ha & st & Hst & Hle).
    assert (Hc : check now s = ended now s).
    { apply (check_end now st); auto. }
    rewrite Hc. repeat split.
  - intros Hnostart Hnoend.
    destruct (check_trichotomy now s)
      as [H | [(He & Ha & Hr & _) | (He & Ha & Hp & _)]].
    + exact H.
    + contradiction Hnostart. split; [exact He|]. split; [exact Ha|].
      apply reached_iff, Hr.
    + contradiction Hnoend. split; [exact He|]. split; [exact Ha|].
      apply period_over_iff in Hp. exact Hp.
  - apply check_disabled.
  - apply check_spec_check_off_zero; assumption.
Qed.

Lemma check_transitions_off_zero_witness :
  let s := __init__ (Some "true") 1700000000 in
  check 1700000030 s = started 1700000030 s
  /\ check 1700000330 (check 1700000030 s)
     = ended 1700000330 (check 1700000030 s).
Proof.
  split.
  - refine (proj1 (proj1 (check_transitions_off_zero 1700000030
                            (__init__ (Some "true") 1700000000) _ _) _)).
    + intros t [= <-]. vm_compute. discriminate.
    + intros t [=].
    + split; [reflexivity|]. split; [reflexivity|].
      exists 1700000000. split; [reflexivity|]. vm_compute. discriminate.
  - refine (proj1 (proj1 (proj2 (check_transitions_off_zero 1700000330
                            (check 1700000030 (__init__ (Some "true") 1700000000))
                            _ _)) _)).
    + intros t [= <-]. vm_compute. discriminate.
    + intros t [= <-]. vm_compute. discriminate.
    + split; [reflexivity|]. split; [reflexivity|].
      exists 1700000030. split; [reflexivity|]. vm_compute. discriminate.
Defined.

(** The hypotheses on the timestamps are needed. Under a clock made to read
    0.0 at construction, the truth test on [_next_slowdown_time] takes the
    timestamp for unset, and the check at time 10 leaves the processor as it
    is; likewise for a start time 0.0 and a check 300 s later. *)
Theorem check_skips_transition_at_zero_timestamp :
  let waiting := __init__ (Some "true") 0 in
  let slow := check 0 (__init__ (Some "true") (-5)) in
  (_slowdown_enabled waiting = true
   /\ _slowdown_active waiting = false
   /\ _next_slowdown_time waiting = Some 0
   /\ 0 <= 10
   /\ check 10 waiting = waiting
   /\ check 10 waiting <> started 10 waiting)
  /\ (_slowdown_enabled slow = true
      /\ _slowdown_active slow = true
      /\ _slowdown_start_time slow = Some 0
      /\ _slowdown_duration <= 300 - 0
      /\ check 300 slow = slow
      /\ check 300 slow <> ended 300 slow).
Proof.
  simpl. repeat split; try reflexivity; discriminate.
Qed.

(** ** The delay *)

(** C3. In every state, so in the state a check leaves, the delay computed
    for a request lies in [[2, 5]] when [enabled] and [active] both hold,
    for a draw [u] of [[0, 1)] inside [random.uniform], and is 0 otherwise;
    computing it changes no attribute and emits nothing. *)
Theorem slowdown_delay_range (u : Q) (self : PaymentProcessor) :
  0 <= u < 1 ->
  let r := _get_slowdown_delay u self in
  after r = self
  /\ events r = []
  /\ (if _slowdown_enabled self && _slowdown_active self
      then 2 <= value r <= 5
      else value r = 0).
Proof.
  intros Hu. unfold_proc.
  destruct (_slowdown_enabled self), (_slowdown_active self); simpl;
    repeat split; unfold uniform, _slowdown_min_delay, _slowdown_max_delay; lra.
Qed.

Lemma slowdown_delay_range_witness :
  let self := check 100 (__init__ (Some "true") 100) in
  0 <= 1 # 2 < 1
  /\ _slowdown_enabled self && _slowdown_active self = true
  /\ 2 <= value (_get_slowdown_delay (1 # 2) self) <= 5.
Proof.
  assert (Hu : 0 <= 1 # 2 < 1).
  { split; [vm_compute; discriminate | reflexivity]. }
  split; [exact Hu|]. split; [reflexivity|].
  exact (proj2 (proj2 (slowdown_delay_range (1 # 2)
           (check 100 (__init__ (Some "true") 100)) Hu))).
Defined.

(** ** Disabled feature *)

Lemma process_payment_after (rd : Readings) (customer_name customer_email : string)
    (amount : Q) (self : PaymentProcessor) :
  after (payment_processor.process_payment rd customer_name customer_email amount self)
  = check (clock rd) self.
Proof.
  rewrite check_cases.
  unfold payment_processor.process_payment. unfold_proc.
  destruct self as [en ac st nx]; simpl.
  destruct en; simpl;
    repeat match goal with
      | |- context [if ?b then _ else _] => destruct b; simpl
      end; reflexivity.
Qed.

Lemma process_payment_sleeps (rd : Readings) (customer_name customer_email : string)
    (amount : Q) (self : PaymentProcessor) :
  sleeps (events (payment_processor.process_payment rd customer_name
                    customer_email amount self))
  = let d := value (_get_slowdown_delay (delay_draw rd) (check (clock rd) self)) in
    if Qlt_bool 0 d then [d; 1 # 2] else [1 # 2].
Proof.
  rewrite check_cases.
  unfold payment_processor.process_payment. unfold_proc.
  destruct self as [en ac st nx]; simpl.
  destruct en; simpl;
    repeat match goal with
      | |- context [if ?b then _ else _] => destruct b eqn:?; simpl
      end; try reflexivity; try discriminate.
Qed.

(** C4. With the feature disabled, checks at any times, in any number,
    leave every attribute as it was, so an [active] that is false, as
    construction leaves it, stays false; the delay
    computed afterwards is 0 for every draw, and a payment call then sleeps
    the base delay only. *)
Theorem disabled_never_slows (self : PaymentProcessor) (times : list Q) :
  _slowdown_enabled self = false ->
  checks times self = self
  /\ (_slowdown_active self = false -> _slowdown_active (checks times self) = false)
  /\ (forall u, _get_slowdown_delay u (checks times self) = (0, self, []))
  /\ (forall rd customer_name customer_email amount,
        sleeps (events (payment_processor.process_payment rd customer_name
                          customer_email amount (checks times self)))
        = [1 # 2]).
Proof.
  intros He. rewrite (checks_disabled times self He).
  split; [reflexivity|]. split; [exact (fun Ha => Ha)|]. split.
  - intros u. unfold_proc. rewrite He. reflexivity.
  - intros rd cn ce amount. rewrite process_payment_sleeps.
    rewrite (check_disabled _ _ He). unfold_proc. rewrite He. reflexivity.
Qed.

Lemma disabled_never_slows_witness :
  let self := __init__ None 1700000000 in
  checks [1700000000; 1700000900; 1700001800] self = self
  /\ _get_slowdown_delay (1 # 2) self = (0, self, []).
Proof.
  pose proof (disabled_never_slows (__init__ None 1700000000)
                [1700000000; 1700000900; 1700001800] eq_refl)
    as (H1 & _ & H3 & _).
  split; [exact H1|]. rewrite <- H1 at 1. apply H3.
Defined.

(** ** Invariant *)

(** C5. [active] holds exactly when a start timestamp is recorded: so it is
    after construction, and a check at any time keeps it so. *)
Theorem start_time_iff_active_invariant :
  (forall env t0, start_time_iff_active (__init__ env t0))
  /\ (forall now self,
        start_time_iff_active self -> start_time_iff_active (check now self))
  /\ (forall env t0 times,
        start_time_iff_active (checks times (__init__ env t0))).
Proof.
  assert (Hinit : forall env t0, start_time_iff_active (__init__ env t0)).
  { intros env t0. unfold start_time_iff_active, __init__; simpl.
    split; [discriminate | intros H; contradiction H; reflexivity]. }
  assert (Hstep : forall now self,
             start_time_iff_active self -> start_time_iff_active (check now self)).
  { intros now self Hinv.
    destruct (check_trichotomy now self) as [-> | [(_ & _ & _ & ->) | (_ & _ & _ & ->)]].
    - exact Hinv.
    - unfold start_time_iff_active, started; simpl.
      split; [discriminate | reflexivity].
    - unfold start_time_iff_active, ended; simpl.
      split; [discriminate | intros H; contradiction H; reflexivity]. }
  split; [exact Hinit|]. split; [exact Hstep|].
  intros env t0 times. generalize (__init__ env t0) (Hinit env t0).
  induction times as [|t times IH]; intros s Hs; [exact Hs|].
  rewrite checks_cons. apply IH, Hstep, Hs.
Qed.

Lemma start_time_iff_active_invariant_witness :
  let self := check 100 (__init__ (Some "true") 100) in
  start_time_iff_active self /\ start_time_iff_active (check 400 self).
Proof.
  assert (H : start_time_iff_active (check 100 (__init__ (Some "true") 100))).
  { split; [discriminate | reflexivity]. }
  split; [exact H|].
  exact (proj1 (proj2 start_time_iff_active_invariant) 400 _ H).
Defined.

(** ** Outcome and slowdown state *)

(** C7. Two calls with the same failure draw give the same [success] flag
    and the same [reason], whatever the two processors' slowdown attributes,
    clock readings and delay draws are; with the same identifier drawn and
    the same amount the two result dicts are equal. The slowdown state
    decides only which sleeps a call makes. *)
Theorem outcome_independent_of_slowdown
    (rd1 rd2 : Readings) (customer_name customer_email : string) (amount : Q)
    (self1 self2 : PaymentProcessor) :
  failure_draw rd1 = failure_draw rd2 ->
  let result1 :=
    value (payment_processor.process_payment rd1 customer_name customer_email
             amount self1) in
  let result2 :=
    value (payment_processor.process_payment rd2 customer_name customer_email
             amount self2) in
  result1 !! "success" = result2 !! "success"
  /\ result1 !! "reason" = result2 !! "reason"
  /\ (uuid4 rd1 = uuid4 rd2 -> result1 = result2).
Proof.
  intros Hd result1 result2. subst result1 result2.
  rewrite !process_payment_value, Hd.
  destruct (Qlt_bool (failure_draw rd2) failure_rate).
  - repeat split.
  - split; [reflexivity|]. split; [reflexivity|]. intros ->. reflexivity.
Qed.

Lemma outcome_independent_of_slowdown_witness :
  let rd1 := {| clock := 100; delay_draw := 1 # 3; failure_draw := 1 # 100;
                uuid4 := "a" |} in
  let rd2 := {| clock := 5000; delay_draw := 2 # 3; failure_draw := 1 # 100;
                uuid4 := "b" |} in
  let slow := check 100 (__init__ (Some "true") 100) in
  let off := __init__ None 100 in
  value (payment_processor.process_payment rd1 "Ada Lovelace" "ada@example.org" (45 # 10) slow)
    !! "success"
  = value (payment_processor.process_payment rd2 "Ada Lovelace" "ada@example.org" (45 # 10) off)
    !! "success".
Proof.
  exact (proj1 (outcome_independent_of_slowdown
           {| clock := 100; delay_draw := 1 # 3; failure_draw := 1 # 100;
              uuid4 := "a" |}
           {| clock := 5000; delay_draw := 2 # 3; failure_draw := 1 # 100;
              uuid4 := "b" |}
           "Ada Lovelace" "ada@example.org" (45 # 10)
           (check 100 (__init__ (Some "true") 100)) (__init__ None 100)
           eq_refl)).
Defined.

(** ** Construction and the first check *)

(** C9. Right after construction with the feature enabled,
    [_next_slowdown_time] is the construction time itself. So the very
    first check, at the construction time or at any later time, starts the
    slow period: it sets [active] and records its own time as start time,
    without waiting the 900 s of the interval. The construction time is a
    reading of [time.time()], not the zero timestamp. *)
Theorem first_check_starts_off_zero (env : option string) (t0 now : Q) :
  slowdown_enabled_of_env env = true -> ~ t0 == 0 -> t0 <= now ->
  _next_slowdown_time (__init__ env t0) = Some t0
  /\ check now (__init__ env t0) = started now (__init__ env t0)
  /\ _slowdown_active (check now (__init__ env t0)) = true
  /\ _slowdown_start_time (check now (__init__ env t0)) = Some now.
Proof.
  intros He Hnz Hle.
  assert (Hn : _next_slowdown_time (__init__ env t0) = Some t0).
  { unfold __init__; simpl. rewrite He. reflexivity. }
  split; [exact Hn|].
  assert (Hc : check now (__init__ env t0) = started now (__init__ env t0)).
  { apply (check_start now t0); auto. }
  rewrite Hc. repeat split.
Qed.

Lemma first_check_starts_off_zero_witness :
  _next_slowdown_time (__init__ (Some "true") 1700000000) = Some 1700000000
  /\ _slowdown_active (check 1700000000 (__init__ (Some "true") 1700000000)) = true
  /\ _slowdown_active (check 1700000899 (__init__ (Some "true") 1700000000)) = true.
Proof.
  assert (Hnz : ~ 1700000000 == 0) by (vm_compute; discriminate).
  assert (H0 : 1700000000 <= 1700000000) by (vm_compute; discriminate).
  assert (H1 : 1700000000 <= 1700000899) by (vm_compute; discriminate).
  destruct (first_check_starts_off_zero (Some "true") 1700000000 1700000000
              eq_refl Hnz H0) as (Hn & _ & Ha0 & _).
  destruct (first_check_starts_off_zero (Some "true") 1700000000 1700000899
              eq_refl Hnz H1) as (_ & _ & Ha1 & _).
  split; [exact Hn|]. split; [exact Ha0 | exact Ha1].
Defined.

(** The hypothesis on the construction time is needed. Under a clock made
    to read 0.0 at construction, [_next_slowdown_time] is that construction
    time, the truth test takes it for unset, and no later check starts the
    slow period. *)
Theorem first_check_at_zero_construction_time (times : list Q) :
  let self := __init__ (Some "true") 0 in
  _slowdown_enabled self = true
  /\ _next_slowdown_time self = Some 0
  /\ checks times self = self
  /\ _slowdown_active (checks times self) = false.
Proof.
  simpl. split; [reflexivity|]. split; [reflexivity|].
  assert (H : checks times (__init__ (Some "true") 0) = __init__ (Some "true") 0).
  { induction times as [|t times IH]; [reflexivity|].
    rewrite checks_cons.
    replace (check t (__init__ (Some "true") 0)) with (__init__ (Some "true") 0);
      [exact IH|].
    rewrite check_cases. reflexivity. }
  rewrite H. split; reflexivity.
Qed.

(** ** Frame of the transitions *)

Lemma all_active_frame (times : list Q) (s : PaymentProcessor) :
  _slowdown_active s = true -> all_active times s = true -> checks times s = s.
Proof.
  revert s. induction times as [|t times IH]; intros s Ha Hall; [reflexivity|].
  simpl in Hall. apply andb_prop in Hall as [Hact Hrest].
  assert (Hc : check t s = s).
  { destruct (check_trichotomy t s) as [H | [(_ & Hf & _) | (_ & _ & _ & H)]].
    - exact H.
    - congruence.
    - rewrite H in Hact. discriminate Hact. }
  rewrite checks_cons, Hc. rewrite Hc in Hrest. apply IH; assumption.
Qed.

(** C10. A check that starts a slow period leaves [_next_slowdown_time] as
    it was, a value that the clock has reached; through every later check
    that finds and leaves the period active no attribute changes, so the
    value stays and no second start happens; and a check changes
    [_next_slowdown_time] only when it ends a slow period, to the time of
    the check plus 900. *)
Theorem next_slowdown_time_frame (now : Q) (self : PaymentProcessor) :
  (_slowdown_active self = false -> _slowdown_active (check now self) = true ->
     _next_slowdown_time (check now self) = _next_slowdown_time self
     /\ exists nxt, _next_slowdown_time self = Some nxt /\ nxt <= now)
  /\ (_slowdown_active self = true -> _slowdown_active (check now self) = true ->
        check now self = self)
  /\ (forall times, _slowdown_active self = true -> all_active times self = true ->
        checks times self = self)
  /\ (_next_slowdown_time (check now self) <> _next_slowdown_time self ->
        _slowdown_active self = true
        /\ _slowdown_active (check now self) = false
        /\ _next_slowdown_time (check now self) = Some (now + 900)).
Proof.
  split; [|split; [|split]].
  - intros Ha Ha'.
    destruct (check_trichotomy now self)
      as [H | [(_ & _ & Hr & H) | (_ & Hf & _)]].
    + rewrite H in Ha'. congruence.
    + rewrite H. split; [reflexivity|]. apply reached_iff, Hr.
    + congruence.
  - intros Ha Ha'.
    destruct (check_trichotomy now self)
      as [H | [(_ & Hf & _) | (_ & _ & _ & H)]].
    + exact H.
    + congruence.
    + rewrite H in Ha'. discriminate Ha'.
  - intros times. apply all_active_frame.
  - intros Hne.
    destruct (check_trichotomy now self)
      as [H | [(_ & _ & _ & H) | (_ & Ha & _ & H)]].
    + rewrite H in Hne. contradiction Hne; reflexivity.
    + rewrite H in Hne. contradiction Hne; reflexivity.
    + rewrite H. repeat split. exact Ha.
Qed.

Lemma next_slowdown_time_frame_witness :
  let self := __init__ (Some "true") 100 in
  _next_slowdown_time (check 130 self) = Some 100
  /\ checks [160; 190; 220] (check 130 self) = check 130 self.
Proof.
  split.
  - exact (proj1 (proj1 (next_slowdown_time_frame 130
                           (__init__ (Some "true") 100)) eq_refl eq_refl)).
  - exact (proj1 (proj2 (proj2 (next_slowdown_time_frame 130
                                  (check 130 (__init__ (Some "true") 100)))))
             [160; 190; 220] eq_refl eq_refl).
Defined.

(** ** The HTTP route *)

Section route_facts.

Import models.

Variable float_str : Q -> string.
Variable validate_optional_str : PyVal -> PyExn + option string.
Variable validate_optional_float : PyVal -> PyExn + option Q.

Lemma route_value (rd : Readings) (payment_request : PaymentRequest.t)
    (self : PaymentProcessor) :
  value (main.process_payment float_str validate_optional_str
           validate_optional_float rd payment_request self)
  = if Qlt_bool (failure_draw rd) failure_rate
    then inl (HTTPException 402 "Payment failed: Insufficient funds")
    else
      match main.make_PaymentResponse validate_optional_str
              validate_optional_float (VStr (uuid4 rd))
              (VFloat (PaymentRequest.amount payment_request)) with
      | inr response => inr response
      | inl (HTTPException status_code detail) =>
          inl (HTTPException status_code detail)
      | inl (Exception str_e) =>
          inl (HTTPException 500 ("Internal server error: " ++ str_e))
      end.
Proof.
  unfold main.process_payment, main.process_payment_with, main.try_except,
    main.raise, main.returns, payment_processor.process_payment.
  unfold_proc.
  destruct (negb (_slowdown_enabled self)); simpl;
    repeat match goal with
      | |- context [if ?b then _ else _] => destruct b; simpl
      end;
    try reflexivity;
    destruct (main.make_PaymentResponse _ _ _ _) as [[sc dt|se]|resp];
    reflexivity.
Qed.

Lemma route_fault (call : string -> string -> Q -> main.Coro (gmap string PyVal))
    (str_e : string) (payment_request : PaymentRequest.t) (self : PaymentProcessor) :
  (forall customer_name customer_email amount s,
     value (call customer_name customer_email amount s) = inl (Exception str_e)) ->
  value (main.process_payment_with float_str validate_optional_str
           validate_optional_float call payment_request self)
  = inl (HTTPException 500 ("Internal server error: " ++ str_e)).
Proof.
  intros Hcall.
  unfold main.process_payment_with, main.try_except, main.raise, main.returns.
  unfold_proc. simpl.
  match goal with
  | |- context [call ?a ?b ?c ?s] =>
      specialize (Hcall a b c s); destruct (call a b c s) as [[r s'] ev]
  end.
  simpl in Hcall. subst r. reflexivity.
Qed.

End route_facts.

(** C6. For the result the processor returns to the route: the route
    raises [HTTPException] 402 with detail "Payment failed: " followed by
    the reason of the result exactly when [success] is false, and returns
    the response body with [success] true, the transaction id and the
    amount of the result (HTTP 200) exactly when [success] is true. It never
    answers 500 for a processor result, and it turns any other exception of
    the awaited call into [HTTPException] 500: a decline and a fault have
    different statuses. The validators are assumed to accept a string and
    a float. *)
Theorem payment_route_statuses
    (float_str : Q -> string)
    (validate_optional_str : PyVal -> PyExn + option string)
    (validate_optional_float : PyVal -> PyExn + option Q) :
  (forall s, validate_optional_str (VStr s) = inr (Some s)) ->
  (forall q, validate_optional_float (VFloat q) = inr (Some q)) ->
  forall (rd : Readings) (payment_request : models.PaymentRequest.t)
         (self : PaymentProcessor),
  let result :=
    value (payment_processor.process_payment rd
             (models.PaymentRequest.customer_name payment_request)
             (main.or_empty (models.PaymentRequest.customer_email payment_request))
             (models.PaymentRequest.amount payment_request) self) in
  let out :=
    value (main.process_payment float_str validate_optional_str
             validate_optional_float rd payment_request self) in
  (result !! "success" = Some (VBool false) <->
     exists reason,
       result !! "reason" = Some (VStr reason)
       /\ out = inl (HTTPException 402 ("Payment failed: " ++ reason)))
  /\ (result !! "success" = Some (VBool false) <-> main.status_code_of out = 402%Z)
  /\ (result !! "success" = Some (VBool true) <->
        exists transaction_id amount,
          result !! "transaction_id" = Some (VStr transaction_id)
          /\ result !! "amount" = Some (VFloat amount)
          /\ out = inr {| models.PaymentResponse.success := true;
                          models.PaymentResponse.transaction_id := Some transaction_id;
                          models.PaymentResponse.reason := None;
                          models.PaymentResponse.amount := Some amount |})
  /\ (result !! "success" = Some (VBool true) <-> main.status_code_of out = 200%Z)
  /\ main.status_code_of out <> 500%Z
  /\ (forall (call : string -> string -> Q -> main.Coro (gmap string PyVal))
             (str_e : string),
        (forall customer_name customer_email amount s,
           value (call customer_name customer_email amount s)
           = inl (Exception str_e)) ->
        value (main.process_payment_with float_str validate_optional_str
                 validate_optional_float call payment_request self)
        = inl (HTTPException 500 ("Internal server error: " ++ str_e))).
Proof.
  intros Hstr Hfloat rd payment_request self result out.
  subst result out. rewrite process_payment_value, route_value.
  unfold main.make_PaymentResponse. rewrite Hstr, Hfloat.
  assert (Hfault :
    forall (call : string -> string -> Q -> main.Coro (gmap string PyVal))
           (str_e : string),
      (forall customer_name customer_email amount s,
         value (call customer_name customer_email amount s)
         = inl (Exception str_e)) ->
      value (main.process_payment_with float_str validate_optional_str
               validate_optional_float call payment_request self)
      = inl (HTTPException 500 ("Internal server error: " ++ str_e))).
  { intros call str_e H. apply route_fault. exact H. }
  destruct (Qlt_bool (failure_draw rd) failure_rate).
  - split; [|split; [|split; [|split; [|split]]]].
    + split; [|reflexivity].
      intros _. exists "Insufficient funds". split; reflexivity.
    + split; reflexivity.
    + split; [discriminate|]. intros (t & a & H & _). discriminate H.
    + split; discriminate.
    + discriminate.
    + exact Hfault.
  - split; [|split; [|split; [|split; [|split]]]].
    + split; [discriminate|]. intros (r & H & _). discriminate H.
    + split; discriminate.
    + split; [|reflexivity]. intros _. eexists _, _. repeat split.
    + split; reflexivity.
    + discriminate.
    + exact Hfault.
Qed.

Lemma payment_route_statuses_witness :
  let rd := {| clock := 1700000000; delay_draw := 1 # 2;
               failure_draw := 1 # 100; uuid4 := "7d4f" |} in
  let payment_request :=
    {| models.PaymentRequest.customer_name := "Ada Lovelace";
       models.PaymentRequest.customer_email := None;
       models.PaymentRequest.amount := 45 # 10 |} in
  main.status_code_of
    (value (main.process_payment (fun _ => "4.5") strict_optional_str
              strict_optional_float rd payment_request
              (__init__ None 1700000000)))
  = 402%Z.
Proof.
  exact (proj1 (proj1 (proj2
    (payment_route_statuses (fun _ => "4.5") strict_optional_str
       strict_optional_float (fun s => eq_refl) (fun q => eq_refl)
       {| clock := 1700000000; delay_draw := 1 # 2;
          failure_draw := 1 # 100; uuid4 := "7d4f" |}
       {| models.PaymentRequest.customer_name := "Ada Lovelace";
          models.PaymentRequest.customer_email := None;
          models.PaymentRequest.amount := 45 # 10 |}
       (__init__ None 1700000000)))) eq_refl).
Defined.

(** ** Critical section *)

Section critical_section.

Import event_loop.

(** The events of one call: the lock is taken, the check logs what it
    does, the lock is released, and every sleep comes after the release. *)
Lemma process_payment_sleeps_after_release (rd : Readings)
    (customer_name customer_email : string) (amount : Q) (self : PaymentProcessor) :
  let inner := events (_check_and_update_slowdown (clock rd) self) in
  exists outer,
    events (payment_processor.process_payment rd customer_name customer_email
              amount self)
    = (LockAcquire :: inner ++ LockRelease :: outer)%list
    /\ sleeps inner = []
    /\ Forall (fun e => is_lock_event e = false) inner
    /\ Forall (fun e => is_lock_event e = false) outer.
Proof.
  unfold payment_processor.process_payment. unfold_proc.
  destruct self as [en ac st nx]; simpl.
  destruct en; simpl;
    repeat match goal with
      | |- context [if ?b then _ else _] => destruct b; simpl
      end;
    eexists; (split; [reflexivity|]); split; try reflexivity;
    split; repeat constructor.
Qed.

Lemma asleep_outside (t : Task) : asleep t = true -> in_critical_section t = false.
Proof. destruct t as [c []|clock_at n []]; simpl; congruence. Qed.

Lemma waiting_task_enters (j : nat) (w : Loop) (t : Task) :
  tasks w !! j = Some t -> at_acquire t = true -> _slowdown_lock w = false ->
  exists w', step j w = Some w' /\ _slowdown_lock w' = true.
Proof.
  intros Hj Ha Hl. unfold step. rewrite Hj.
  destruct t as [c []|clock_at n []]; simpl in *; try discriminate;
    rewrite Hl; eexists; split; reflexivity.
Qed.

(** C8. In every state the service can reach from startup, whatever the
    order in which tasks run: the lock is locked exactly when one task is
    between entering and leaving its [async with] block, so two tasks are
    never there together; a step that changes the processor is a step of
    the task in its block, payment call or monitor alike; the delay read of
    a call finds the processor exactly as the check of the same call left
    it; while a task is in its block no step of another task touches the
    processor or the lock; and a task suspended in a sleep is outside its
    block: when no other task is in its block the lock is free, and a task
    waiting for the lock can enter. *)
Theorem slowdown_state_critical_section
    (env : option string) (now : Q) (calls : list Call) (clock_at : nat -> Q)
    (w : Loop) :
  reachable (startup env now calls clock_at) w ->
  inside (tasks w) = bit (_slowdown_lock w)
  /\ (forall i j ti tj,
        tasks w !! i = Some ti -> tasks w !! j = Some tj ->
        in_critical_section ti = true -> in_critical_section tj = true ->
        i = j)
  /\ (forall i w',
        step i w = Some w' -> processor w' <> processor w ->
        exists t, tasks w !! i = Some t /\ in_critical_section t = true)
  /\ (forall i c checked,
        tasks w !! i = Some (RequestTask c (AtDelay checked)) ->
        processor w = checked
        /\ exists w',
             step i w = Some w'
             /\ processor w' = checked
             /\ tasks w' !! i
                = Some (RequestTask c
                          (AtRelease
                             (value (_get_slowdown_delay
                                       (delay_draw (readings c)) checked)))))
  /\ (forall i j ti w',
        i <> j -> tasks w !! i = Some ti -> in_critical_section ti = true ->
        step j w = Some w' ->
        processor w' = processor w
        /\ _slowdown_lock w' = true
        /\ tasks w' !! i = Some ti)
  /\ (forall i t,
        tasks w !! i = Some t -> asleep t = true ->
        in_critical_section t = false
        /\ ((forall j tj, j <> i -> tasks w !! j = Some tj ->
               in_critical_section tj = false) ->
            _slowdown_lock w = false
            /\ forall j tj, tasks w !! j = Some tj -> at_acquire tj = true ->
                 exists w', step j w = Some w' /\ _slowdown_lock w' = true)).
Proof.
  intros Hreach.
  pose proof (lock_invariant_reachable _ _
                (lock_invariant_startup env now calls clock_at) Hreach)
    as [Hcount Hsnap].
  assert (Hmutex : forall i j ti tj,
             tasks w !! i = Some ti -> tasks w !! j = Some tj ->
             in_critical_section ti = true -> in_critical_section tj = true ->
             i = j).
  { intros i j ti tj Hi Hj Hti Htj.
    destruct (Nat.eq_dec i j) as [|Hne]; [assumption|]. exfalso.
    pose proof (inside_two _ _ _ _ _ Hne Hi Hj Hti Htj) as H2.
    rewrite Hcount in H2. destruct (_slowdown_lock w); simpl in H2; lia. }
  split; [exact Hcount|]. split; [exact Hmutex|].
  split; [|split; [|split]].
  - intros i w' Hstep Hchg.
    destruct (step_inversion i w w' Hstep) as (t & t' & Hi & _ & _ & Hcase).
    exists t. split; [exact Hi|].
    destruct Hcase as [(_ & _ & _ & _ & _ & Hp)
                      | [(Hc & _)
                      | [(Hc & _)
                      | (_ & _ & _ & _ & Hp)]]]; congruence.
  - intros i c checked Hi. pose proof (Hsnap i c checked Hi) as Hp.
    split; [exact Hp|].
    assert (Hlen : (i < length (tasks w))%nat) by (eapply lookup_lt_Some; eauto).
    unfold step. rewrite Hi. simpl. eexists. split; [reflexivity|]. simpl.
    rewrite Hp. split.
    + apply get_slowdown_delay_pure.
    + rewrite list_lookup_insert_eq by exact Hlen. reflexivity.
  - intros i j ti w' Hne Hi Hti Hstep.
    destruct (step_inversion j w w' Hstep) as (tj & tj' & Hj & Hts & _ & Hcase).
    pose proof (inside_lookup _ _ _ Hi Hti) as Hge. rewrite Hcount in Hge.
    assert (Hl : _slowdown_lock w = true)
      by (destruct (_slowdown_lock w); simpl in Hge; [reflexivity | lia]).
    assert (Hout : in_critical_section tj = false).
    { destruct (in_critical_section tj) eqn:Hc; [|reflexivity].
      contradiction Hne. eapply Hmutex; eauto. }
    rewrite Hts, list_lookup_insert_ne by congruence.
    destruct Hcase as [(_ & _ & _ & Hfree & _)
                      | [(Hc & _)
                      | [(Hc & _)
                      | (_ & _ & _ & Hl' & Hp)]]]; try congruence.
    repeat split; congruence.
  - intros i t Hi Hs. split; [apply asleep_outside, Hs|].
    intros Hothers.
    assert (Hfree : _slowdown_lock w = false).
    { assert (H0 : inside (tasks w) = 0%nat).
      { apply inside_none. intros j tj Hj.
        destruct (Nat.eq_dec j i) as [-> | Hne].
        - rewrite Hi in Hj. injection Hj as <-. apply asleep_outside, Hs.
        - eapply Hothers; eauto. }
      rewrite Hcount in H0. destruct (_slowdown_lock w); [discriminate H0|].
      reflexivity. }
    split; [exact Hfree|].
    intros j tj Hj Ha. eapply waiting_task_enters; eauto.
Qed.

(** Two payment calls entered one after the other are both in their
    slowdown sleep, and the lock is free for the monitor. *)
Lemma slowdown_state_critical_section_witness :
  let c1 := {| readings := {| clock := 130; delay_draw := 1 # 3;
                              failure_draw := 1 # 2; uuid4 := "a1" |};
               customer_name := "Ada Lovelace"; customer_email := EmptyString;
               amount := 45 # 10 |} in
  let c2 := {| readings := {| clock := 131; delay_draw := 2 # 3;
                              failure_draw := 1 # 100; uuid4 := "b2" |};
               customer_name := "Grace Hopper"; customer_email := EmptyString;
               amount := 3 |} in
  let w0 := startup (Some "true") 100 [c1; c2] (fun n => 130 + 30 * inject_Z (Z.of_nat n)) in
  match run [0; 0; 0; 0; 1; 1; 1; 1; 2]%nat w0 with
  | Some w =>
      (exists t1 t2 t3,
         tasks w = [t1; t2; t3]
         /\ asleep t1 = true /\ asleep t2 = true /\ at_acquire t3 = true)
      /\ _slowdown_lock w = false
      /\ exists w', step 2 w = Some w' /\ _slowdown_lock w' = true
  | None => False
  end.
Proof.
  intros c1 c2 w0.
  destruct (run [0; 0; 0; 0; 1; 1; 1; 1; 2]%nat w0) as [w|] eqn:Hrun;
    [|vm_compute in Hrun; discriminate Hrun].
  pose proof (slowdown_state_critical_section (Some "true") 100 [c1; c2]
                (fun n => 130 + 30 * inject_Z (Z.of_nat n)) w
                (run_reachable _ _ _ _ (reachable_start w0) Hrun))
    as (_ & _ & _ & _ & _ & Hsleep).
  vm_compute in Hrun. injection Hrun as <-.
  split; [eexists _, _, _; repeat split|].
  destruct (Hsleep 0%nat _ eq_refl eq_refl) as (_ & Hfree).
  destruct Hfree as [Hl Henter].
  - intros [|[|[|j]]] tj Hne Hj; simpl in Hj; try discriminate;
      [contradiction Hne; reflexivity | |]; injection Hj as <-; reflexivity.
  - split; [exact Hl|]. exact (Henter 2%nat _ eq_refl eq_refl).
Defined.

End critical_section.

(** ** Scenarios *)

Section scenarios.

Import models.

(** Slowdown disabled, failure draw below the rate: a decline, HTTP 402. *)
Example scenario_decline :
  value (main.process_payment (fun _ => "4.5") strict_optional_str
           strict_optional_float
           {| clock := 1700000000; delay_draw := 1 # 2;
              failure_draw := 1 # 100; uuid4 := "0f8fad5b" |}
           ada (__init__ None 1700000000))
  = inl (HTTPException 402 "Payment failed: Insufficient funds").
Proof. vm_compute. reflexivity. Qed.

(** Same request, failure draw above the rate: success with the amount
    echoed, HTTP 200. *)
Example scenario_success :
  value (main.process_payment (fun _ => "4.5") strict_optional_str
           strict_optional_float
           {| clock := 1700000000; delay_draw := 1 # 2;
              failure_draw := 1 # 2; uuid4 := "0f8fad5b" |}
           ada (__init__ None 1700000000))
  = inr {| PaymentResponse.success := true;
           PaymentResponse.transaction_id := Some "0f8fad5b";
           PaymentResponse.reason := None;
           PaymentResponse.amount := Some (45 # 10) |}.
Proof. vm_compute. reflexivity. Qed.

(** Slowdown enabled and due one second ago: the first call starts the
    slow period and sleeps the slowdown delay, here 3.5 s, then the base
    delay. *)
Example scenario_first_call_slow :
  let r := payment_processor.process_payment
             {| clock := 1700000001; delay_draw := 1 # 2;
                failure_draw := 1 # 2; uuid4 := "0f8fad5b" |}
             "Ada Lovelace" "ada@example.org" (45 # 10) (__init__ (Some "TRUE") 1700000000) in
  _slowdown_active (after r) = true
  /\ _slowdown_start_time (after r) = Some 1700000001
  /\ sleeps (events r) = [2 + (5 - 2) * (1 # 2); 1 # 2].
Proof. vm_compute. repeat split. Qed.

(** A slow period ends at the first check 300 s after its start, and the
    next one is due 900 s after that check. *)
Example scenario_period_ends :
  checks [1700000000; 1700000150; 1700000300] (__init__ (Some "yes") 1700000000)
  = {| _slowdown_enabled := true;
       _slowdown_active := false;
       _slowdown_start_time := None;
       _next_slowdown_time := Some (1700000300 + 900) |}.
Proof. reflexivity. Qed.

End scenarios.

(** * Further properties of the code *)

(** ** The check against the state machine, for clocks after the epoch *)

Lemma timestamp_truthy_positive (x : option Q) :
  (forall t, x = Some t -> 0 < t) -> timestamp_truthy x = match x with Some _ => true | None => false end.
Proof.
  intros H. destruct x as [q|]; [|reflexivity]. simpl.
  apply float_truthy_iff. specialize (H q eq_refl). lra.
Qed.

Lemma check_spec_check (now : Q) (s : PaymentProcessor) :
  timestamps_positive s -> check now s = spec_check now s.
Proof.
  intros [Hs Hn]. rewrite check_cases. unfold spec_check.
  rewrite (timestamp_truthy_positive _ Hs), (timestamp_truthy_positive _ Hn).
  destruct (_slowdown_start_time s), (_next_slowdown_time s); simpl;
    rewrite ?andb_true_r, ?andb_false_r; reflexivity.
Qed.

Lemma timestamps_positive_check (now : Q) (s : PaymentProcessor) :
  0 < now -> timestamps_positive s -> timestamps_positive (check now s).
Proof.
  intros Hnow [Hs Hn].
  destruct (check_trichotomy now s) as [-> | [(_ & _ & _ & ->) | (_ & _ & _ & ->)]].
  - split; assumption.
  - split; simpl; [intros t [= <-]; exact Hnow | exact Hn].
  - split; simpl; [discriminate|].
    intros t [= <-]. unfold _slowdown_interval. lra.
Qed.

Lemma timestamps_positive_init (env : option string) (t0 : Q) :
  0 < t0 -> timestamps_positive (__init__ env t0).
Proof.
  intros H. split; simpl; [discriminate|].
  destruct (slowdown_enabled_of_env env); [intros t [= <-]; exact H | discriminate].
Qed.

Lemma checks_spec_checks (times : list Q) (s : PaymentProcessor) :
  timestamps_positive s -> Forall (fun t => 0 < t) times ->
  checks times s = spec_checks times s /\ timestamps_positive (checks times s).
Proof.
  revert s. induction times as [|t times IH]; intros s Hs Ht.
  - split; [reflexivity | exact Hs].
  - inversion Ht as [|? ? Hpos Hrest]; subst.
    rewrite checks_cons. unfold spec_checks; simpl.
    rewrite <- (check_spec_check t s Hs).
    apply IH; [apply timestamps_positive_check; assumption | exact Hrest].
Qed.

(** X1. When the clock reads a time after the epoch at construction and at
    every check, the processor goes through exactly the states of the state
    machine whose guards test that a timestamp is set: the truth tests of
    the source and the tests for [None] never differ on such a run. *)
Theorem checks_follow_state_machine_after_epoch
    (env : option string) (t0 : Q) (times : list Q) :
  0 < t0 -> Forall (fun t => 0 < t) times ->
  checks times (__init__ env t0) = spec_checks times (__init__ env t0).
Proof.
  intros H0 Ht.
  apply (checks_spec_checks times (__init__ env t0));
    [apply timestamps_positive_init; exact H0 | exact Ht].
Qed.

Lemma checks_follow_state_machine_after_epoch_witness :
  checks [1700000010; 1700000320; 1700001300] (__init__ (Some "true") 1700000000)
  = spec_checks [1700000010; 1700000320; 1700001300]
      (__init__ (Some "true") 1700000000).
Proof.
  apply (checks_follow_state_machine_after_epoch (Some "true") 1700000000
           [1700000010; 1700000320; 1700001300]).
  - reflexivity.
  - repeat constructor.
Defined.

(** ** How long the phases last *)

Lemma checks_app (l1 l2 : list Q) (s : PaymentProcessor) :
  checks (l1 ++ l2) s = checks l2 (checks l1 s).
Proof. unfold checks. apply fold_left_app. Qed.

Lemma checks_within_slow_period (times : list Q) (st : Q) (s : PaymentProcessor) :
  _slowdown_active s = true -> _slowdown_start_time s = Some st ->
  Forall (fun t => t - st < 300) times -> checks times s = s.
Proof.
  intros Ha Hst Ht. induction Ht as [|t times Hlt _ IH]; [reflexivity|].
  rewrite checks_cons, (check_slow t s Ha); [exact IH|].
  intros st' Hst'. rewrite Hst in Hst'. injection Hst' as <-.
  unfold _slowdown_duration. exact Hlt.
Qed.

Lemma checks_while_waiting (times : list Q) (nxt : Q) (s : PaymentProcessor) :
  _slowdown_active s = false -> _next_slowdown_time s = Some nxt ->
  Forall (fun t => t < nxt) times -> checks times s = s.
Proof.
  intros Ha Hn Ht. induction Ht as [|t times Hlt _ IH]; [reflexivity|].
  rewrite checks_cons, (check_waiting t s Ha); [exact IH|].
  intros nxt' Hn'. rewrite Hn in Hn'. injection Hn' as <-. exact Hlt.
Qed.

(** X2. A slow period that started at a non-zero time [st] lasts through
    every check made less than 300 s after [st], whatever their number and
    order, and ends at the first check made 300 s after [st] or later: that
    check clears [active] and the start time and sets the next start 900 s
    after itself, so at least 1200 s after [st]. *)
Theorem slow_period_ends_at_first_check_after_300s
    (times : list Q) (st t_end : Q) (self : PaymentProcessor) :
  _slowdown_enabled self = true -> _slowdown_active self = true ->
  _slowdown_start_time self = Some st -> ~ st == 0 ->
  Forall (fun t => t - st < 300) times -> 300 <= t_end - st ->
  checks times self = self
  /\ checks (times ++ [t_end]) self = ended t_end self
  /\ _next_slowdown_time (checks (times ++ [t_end]) self) = Some (t_end + 900)
  /\ st + 1200 <= t_end + 900.
Proof.
  intros He Ha Hst Hnz Ht Hend.
  pose proof (checks_within_slow_period times st self Ha Hst Ht) as Hkeep.
  split; [exact Hkeep|].
  assert (Hlast : checks (times ++ [t_end]) self = ended t_end self).
  { rewrite checks_app, Hkeep. simpl. unfold checks; simpl.
    apply (check_end t_end st); auto. }
  split; [exact Hlast|]. split; [rewrite Hlast; reflexivity | lra].
Qed.

Lemma slow_period_ends_at_first_check_after_300s_witness :
  let self := check 1000 (__init__ (Some "true") 1000) in
  checks [1030; 1150; 1299] self = self
  /\ checks ([1030; 1150; 1299] ++ [1300]) self = ended 1300 self.
Proof.
  destruct (slow_period_ends_at_first_check_after_300s [1030; 1150; 1299]
              1000 1300 (check 1000 (__init__ (Some "true") 1000))
              eq_refl eq_refl eq_refl)
    as (H1 & H2 & _).
  - vm_compute. discriminate.
  - repeat constructor.
  - vm_compute. discriminate.
  - split; [exact H1 | exact H2].
Defined.

(** X3. While the service is enabled and not in a slow period, with the
    next start set to a non-zero time [nxt], every check made before [nxt]
    leaves the processor as it is, and the first check made at [nxt] or
    later starts the slow period at the time of that check, leaving [nxt]
    in place. *)
Theorem slow_period_starts_at_first_check_after_next_time
    (times : list Q) (nxt t_start : Q) (self : PaymentProcessor) :
  _slowdown_enabled self = true -> _slowdown_active self = false ->
  _next_slowdown_time self = Some nxt -> ~ nxt == 0 ->
  Forall (fun t => t < nxt) times -> nxt <= t_start ->
  checks times self = self
  /\ checks (times ++ [t_start]) self = started t_start self
  /\ _slowdown_start_time (checks (times ++ [t_start]) self) = Some t_start
  /\ _next_slowdown_time (checks (times ++ [t_start]) self) = Some nxt.
Proof.
  intros He Ha Hn Hnz Ht Hstart.
  pose proof (checks_while_waiting times nxt self Ha Hn Ht) as Hkeep.
  split; [exact Hkeep|].
  assert (Hlast : checks (times ++ [t_start]) self = started t_start self).
  { rewrite checks_app, Hkeep. unfold checks; simpl.
    apply (check_start t_start nxt); auto. }
  split; [exact Hlast|]. rewrite Hlast. split; [reflexivity | exact Hn].
Qed.

Lemma slow_period_starts_at_first_check_after_next_time_witness :
  let self := ended 1300 (check 1000 (__init__ (Some "true") 1000)) in
  checks [1400; 2000; 2199] self = self
  /\ checks ([1400; 2000; 2199] ++ [2200]) self = started 2200 self.
Proof.
  destruct (slow_period_starts_at_first_check_after_next_time
              [1400; 2000; 2199] (1300 + 900) 2200
              (ended 1300 (check 1000 (__init__ (Some "true") 1000)))
              eq_refl eq_refl eq_refl)
    as (H1 & H2 & _).
  - vm_compute. discriminate.
  - repeat constructor.
  - vm_compute. discriminate.
  - split; [exact H1 | exact H2].
Defined.

(** ** Payment calls in sequence *)

Section serving.

Import event_loop.

Lemma checks_enabled (times : list Q) (s : PaymentProcessor) :
  _slowdown_enabled (checks times s) = _slowdown_enabled s.
Proof.
  revert s. induction times as [|t times IH]; intros s; [reflexivity|].
  rewrite checks_cons, IH. apply check_enabled.
Qed.

Lemma serve_from (calls : list Call) (s : PaymentProcessor)
    (done : list (gmap string PyVal)) :
  fold_left
    (fun acc c =>
       let r := payment_processor.process_payment (readings c) (customer_name c)
                  (customer_email c) (amount c) (fst acc) in
       (after r, (snd acc ++ [value r])%list))
    calls (s, done)
  = (checks (map (fun c => clock (readings c)) calls) s,
     (done ++ map (fun c => if Qlt_bool (failure_draw (readings c)) failure_rate
                            then decline_result
                            else success_result (uuid4 (readings c)) (amount c))
                calls)%list).
Proof.
  revert s done. induction calls as [|c calls IH]; intros s done; simpl.
  - rewrite app_nil_r. reflexivity.
  - rewrite process_payment_after, process_payment_value, IH.
    rewrite <- app_assoc. reflexivity.
Qed.

(** X4. Payment calls served one after the other change the processor
    exactly as the checks at their clock readings do, in the same order: no
    other part of a call touches it, and [enabled] stays as it was. The
    results are the ones the failure draws of the calls determine, one per
    call and in order, whatever the slowdown state was. *)
Theorem serve_is_a_sequence_of_checks (calls : list Call) (self : PaymentProcessor) :
  fst (serve calls self) = checks (map (fun c => clock (readings c)) calls) self
  /\ _slowdown_enabled (fst (serve calls self)) = _slowdown_enabled self
  /\ snd (serve calls self)
     = map (fun c => if Qlt_bool (failure_draw (readings c)) failure_rate
                     then decline_result
                     else success_result (uuid4 (readings c)) (amount c))
         calls
  /\ length (snd (serve calls self)) = length calls.
Proof.
  unfold serve. rewrite serve_from. simpl.
  split; [reflexivity|]. split; [apply checks_enabled|].
  split; [reflexivity|]. apply length_map.
Qed.

End serving.

(** ** Time a call sleeps *)

Lemma get_slowdown_delay_value (u : Q) (p : PaymentProcessor) :
  value (_get_slowdown_delay u p)
  = if _slowdown_enabled p && _slowdown_active p
    then uniform _slowdown_min_delay _slowdown_max_delay u
    else 0.
Proof.
  unfold_proc. destruct (_slowdown_enabled p), (_slowdown_active p); reflexivity.
Qed.

(** X5. For a delay draw of [[0, 1)], a payment call sleeps the base delay
    of 0.5 s exactly once and last; when the check of the call leaves the
    processor enabled and active it sleeps one slowdown delay of 2 to 5 s
    before, and otherwise nothing more. In all a call sleeps between 0.5 s
    and 5.5 s, and at least 2.5 s during a slow period. *)
Theorem process_payment_total_sleep
    (rd : Readings) (customer_name customer_email : string) (amount : Q)
    (self : PaymentProcessor) :
  0 <= delay_draw rd < 1 ->
  let evs := events (payment_processor.process_payment rd customer_name
                       customer_email amount self) in
  let p := check (clock rd) self in
  (if _slowdown_enabled p && _slowdown_active p
   then exists d, sleeps evs = [d; 1 # 2] /\ 2 <= d <= 5
                  /\ 5 # 2 <= total_sleep evs
   else sleeps evs = [1 # 2] /\ total_sleep evs == 1 # 2)
  /\ 1 # 2 <= total_sleep evs <= 11 # 2.
Proof.
  intros Hu evs p. subst evs p. unfold total_sleep.
  rewrite process_payment_sleeps. simpl. rewrite get_slowdown_delay_value.
  destruct (_slowdown_enabled (check (clock rd) self)
            && _slowdown_active (check (clock rd) self)).
  - assert (Hd : 2 <= uniform _slowdown_min_delay _slowdown_max_delay (delay_draw rd) <= 5).
    { unfold uniform, _slowdown_min_delay, _slowdown_max_delay. lra. }
    assert (Hpos : Qlt_bool 0 (uniform _slowdown_min_delay _slowdown_max_delay
                                 (delay_draw rd)) = true).
    { apply Qlt_bool_iff. lra. }
    rewrite Hpos. simpl. split.
    + eexists. split; [reflexivity|]. split; [exact Hd | lra].
    + lra.
  - simpl. split; [split; [reflexivity | lra] | lra].
Qed.

Lemma process_payment_total_sleep_witness :
  let rd := {| clock := 1700000001; delay_draw := 1 # 2;
               failure_draw := 1 # 2; uuid4 := "0f8fad5b" |} in
  1 # 2 <= total_sleep
             (events (payment_processor.process_payment rd "Ada Lovelace"
                        "ada@example.org" (45 # 10)
                        (__init__ (Some "true") 1700000000))) <= 11 # 2.
Proof.
  assert (Hu : 0 <= 1 # 2 < 1).
  { split; [vm_compute; discriminate | reflexivity]. }
  exact (proj2 (process_payment_total_sleep
           {| clock := 1700000001; delay_draw := 1 # 2;
              failure_draw := 1 # 2; uuid4 := "0f8fad5b" |}
           "Ada Lovelace" "ada@example.org" (45 # 10)
           (__init__ (Some "true") 1700000000) Hu)).
Defined.

(** ** The route over any awaited call *)

Section route_edges.

Import models.

Variable float_str : Q -> string.
Variable validate_optional_str : PyVal -> PyExn + option string.
Variable validate_optional_float : PyVal -> PyExn + option Q.

Local Abbreviation route :=
  (main.process_payment_with float_str validate_optional_str
     validate_optional_float).

Ltac route_unfold H :=
  unfold main.process_payment_with, main.try_except, main.raise, main.returns;
  unfold value, after, events, bind, get, ret, emit; simpl;
  rewrite H; simpl.

(** X6. When the awaited call returns a dict without the key "success",
    the subscript raises [KeyError] and the route answers 500 with detail
    "Internal server error: 'success'", the processor being left as the
    call left it. *)
Theorem route_missing_success_key
    (call : string -> string -> Q -> main.Coro (gmap string PyVal))
    (payment_request : PaymentRequest.t) (self self' : PaymentProcessor)
    (result : gmap string PyVal) (evs : list Event) :
  call (PaymentRequest.customer_name payment_request)
       (main.or_empty (PaymentRequest.customer_email payment_request))
       (PaymentRequest.amount payment_request) self
  = (inr result, self', evs) ->
  result !! "success" = None ->
  value (route call payment_request self)
  = inl (HTTPException 500 "Internal server error: 'success'")
  /\ after (route call payment_request self) = self'.
Proof.
  intros Hcall Hkey. route_unfold Hcall. rewrite Hkey. simpl.
  split; reflexivity.
Qed.

(** X7. When the awaited call returns a dict whose "success" is falsy
    ([False], [None], [0.0] or the empty string), the route answers 402,
    and the detail is "Payment failed: " followed by the reason: the text
    of a string reason, "None" for a reason that is [None], and
    "Unknown error" when the dict has no "reason". *)
Theorem route_decline_detail
    (call : string -> string -> Q -> main.Coro (gmap string PyVal))
    (payment_request : PaymentRequest.t) (self self' : PaymentProcessor)
    (result : gmap string PyVal) (ok : PyVal) (evs : list Event) :
  call (PaymentRequest.customer_name payment_request)
       (main.or_empty (PaymentRequest.customer_email payment_request))
       (PaymentRequest.amount payment_request) self
  = (inr result, self', evs) ->
  result !! "success" = Some ok ->
  truthy ok = false ->
  main.status_code_of (value (route call payment_request self)) = 402%Z
  /\ (result !! "reason" = None ->
      value (route call payment_request self)
      = inl (HTTPException 402 "Payment failed: Unknown error"))
  /\ (result !! "reason" = Some VNone ->
      value (route call payment_request self)
      = inl (HTTPException 402 "Payment failed: None"))
  /\ (forall reason, result !! "reason" = Some (VStr reason) ->
      value (route call payment_request self)
      = inl (HTTPException 402 ("Payment failed: " ++ reason))).
Proof.
  intros Hcall Hkey Hfalsy. route_unfold Hcall. rewrite Hkey. simpl.
  rewrite Hfalsy. simpl. unfold main.dict_get.
  split; [reflexivity|]. split; [|split].
  - intros ->. reflexivity.
  - intros ->. reflexivity.
  - intros reason ->. reflexivity.
Qed.

(** X8. An [HTTPException] raised by the awaited call leaves the route
    unchanged, with its status and detail, and no error record is logged
    for it. *)
Theorem route_reraises_http_exception
    (call : string -> string -> Q -> main.Coro (gmap string PyVal))
    (payment_request : PaymentRequest.t) (self self' : PaymentProcessor)
    (status_code : Z) (detail : string) (evs : list Event) :
  call (PaymentRequest.customer_name payment_request)
       (main.or_empty (PaymentRequest.customer_email payment_request))
       (PaymentRequest.amount payment_request) self
  = (inl (HTTPException status_code detail), self', evs) ->
  value (route call payment_request self)
  = inl (HTTPException status_code detail)
  /\ after (route call payment_request self) = self'
  /\ (Forall (fun e => is_error_log e = false) evs ->
      Forall (fun e => is_error_log e = false)
        (events (route call payment_request self))).
Proof.
  intros Hcall. route_unfold Hcall. split; [reflexivity|].
  split; [reflexivity|].
  intros Hevs. constructor; [reflexivity|].
  rewrite app_nil_r. apply Forall_app. split; [exact Hevs | constructor].
Qed.

(** X10. When the awaited call reports success and the validation of the
    transaction id or of the amount raises, the route answers 500 with
    detail "Internal server error: " followed by the text of the
    validation error, not 200. *)
Theorem route_validation_error_is_500
    (call : string -> string -> Q -> main.Coro (gmap string PyVal))
    (payment_request : PaymentRequest.t) (self self' : PaymentProcessor)
    (result : gmap string PyVal) (ok : PyVal) (evs : list Event) (str_e : string) :
  call (PaymentRequest.customer_name payment_request)
       (main.or_empty (PaymentRequest.customer_email payment_request))
       (PaymentRequest.amount payment_request) self
  = (inr result, self', evs) ->
  result !! "success" = Some ok ->
  truthy ok = true ->
  main.make_PaymentResponse validate_optional_str validate_optional_float
    (main.dict_get result "transaction_id" VNone)
    (main.dict_get result "amount" VNone)
  = inl (Exception str_e) ->
  value (route call payment_request self)
  = inl (HTTPException 500 ("Internal server error: " ++ str_e)).
Proof.
  intros Hcall Hkey Htruthy Hval. route_unfold Hcall. rewrite Hkey. simpl.
  rewrite Htruthy. simpl. rewrite Hval. reflexivity.
Qed.

(** X11. When the awaited call reports success in a dict that has neither
    "transaction_id" nor "amount", and the validators accept [None], the
    route answers 200 with both fields [None]: it does not require them. *)
Theorem route_success_without_fields
    (call : string -> string -> Q -> main.Coro (gmap string PyVal))
    (payment_request : PaymentRequest.t) (self self' : PaymentProcessor)
    (result : gmap string PyVal) (ok : PyVal) (evs : list Event) :
  validate_optional_str VNone = inr None ->
  validate_optional_float VNone = inr None ->
  call (PaymentRequest.customer_name payment_request)
       (main.or_empty (PaymentRequest.customer_email payment_request))
       (PaymentRequest.amount payment_request) self
  = (inr result, self', evs) ->
  result !! "success" = Some ok ->
  truthy ok = true ->
  result !! "transaction_id" = None ->
  result !! "amount" = None ->
  value (route call payment_request self)
  = inr {| PaymentResponse.success := true;
           PaymentResponse.transaction_id := None;
           PaymentResponse.reason := None;
           PaymentResponse.amount := None |}.
Proof.
  intros Hs Hf Hcall Hkey Htruthy Htid Hamt. route_unfold Hcall.
  rewrite Hkey. simpl. rewrite Htruthy. simpl.
  unfold main.make_PaymentResponse, main.dict_get.
  rewrite Htid, Hamt, Hs, Hf. reflexivity.
Qed.

End route_edges.

Lemma route_missing_success_key_witness :
  value (main.process_payment_with (fun _ => "4.5") strict_optional_str
           strict_optional_float (call_returning ∅) ada (__init__ None 100))
  = inl (HTTPException 500 "Internal server error: 'success'").
Proof.
  exact (proj1 (route_missing_success_key (fun _ => "4.5") strict_optional_str
                  strict_optional_float (call_returning ∅) ada
                  (__init__ None 100) (__init__ None 100) ∅ []
                  eq_refl eq_refl)).
Defined.

Lemma route_decline_detail_witness :
  value (main.process_payment_with (fun _ => "4.5") strict_optional_str
           strict_optional_float
           (call_returning (<["success" := VBool false]> ∅)) ada
           (__init__ None 100))
  = inl (HTTPException 402 "Payment failed: Unknown error").
Proof.
  exact (proj1 (proj2 (route_decline_detail (fun _ => "4.5") strict_optional_str
                  strict_optional_float
                  (call_returning (<["success" := VBool false]> ∅)) ada
                  (__init__ None 100) (__init__ None 100)
                  (<["success" := VBool false]> ∅) (VBool false) []
                  eq_refl eq_refl eq_refl)) eq_refl).
Defined.

Lemma route_reraises_http_exception_witness :
  value (main.process_payment_with (fun _ => "4.5") strict_optional_str
           strict_optional_float
           (call_raising (HTTPException 429 "Too many requests")) ada
           (__init__ None 100))
  = inl (HTTPException 429 "Too many requests").
Proof.
  exact (proj1 (route_reraises_http_exception (fun _ => "4.5")
                  strict_optional_str strict_optional_float
                  (call_raising (HTTPException 429 "Too many requests")) ada
                  (__init__ None 100) (__init__ None 100) 429
                  "Too many requests" [] eq_refl)).
Defined.

Lemma route_validation_error_is_500_witness :
  value (main.process_payment_with (fun _ => "4.5") strict_optional_str
           strict_optional_float
           (call_returning (<["success" := VBool true]>
                            (<["transaction_id" := VFloat 7]> ∅))) ada
           (__init__ None 100))
  = inl (HTTPException 500
           "Internal server error: Input should be a valid string").
Proof.
  exact (route_validation_error_is_500 (fun _ => "4.5") strict_optional_str
           strict_optional_float
           (call_returning (<["success" := VBool true]>
                            (<["transaction_id" := VFloat 7]> ∅))) ada
           (__init__ None 100) (__init__ None 100)
           (<["success" := VBool true]> (<["transaction_id" := VFloat 7]> ∅))
           (VBool true) [] "Input should be a valid string"
           eq_refl eq_refl eq_refl eq_refl).
Defined.

Lemma route_success_without_fields_witness :
  value (main.process_payment_with (fun _ => "4.5") strict_optional_str
           strict_optional_float
           (call_returning (<["success" := VBool true]> ∅)) ada
           (__init__ None 100))
  = inr {| models.PaymentResponse.success := true;
           models.PaymentResponse.transaction_id := None;
           models.PaymentResponse.reason := None;
           models.PaymentResponse.amount := None |}.
Proof.
  exact (route_success_without_fields (fun _ => "4.5") strict_optional_str
           strict_optional_float
           (call_returning (<["success" := VBool true]> ∅)) ada
           (__init__ None 100) (__init__ None 100)
           (<["success" := VBool true]> ∅) (VBool true) []
           eq_refl eq_refl eq_refl eq_refl eq_refl eq_refl eq_refl).
Defined.

(** ** The route and the processor behind it *)

Lemma sleeps_app (l1 l2 : list Event) :
  sleeps (l1 ++ l2) = (sleeps l1 ++ sleeps l2)%list.
Proof. unfold sleeps. apply flat_map_app. Qed.

Local Opaque payment_processor.process_payment.

(** X12. Around the call of the processor the route only logs: it changes
    the processor exactly as the one state check of the call does, its
    events are the record "Processing payment", then the events of the
    processor call, then records of its own that hold no sleep and no lock
    operation, so the route sleeps exactly what the processor call
    sleeps. *)
Theorem route_only_logs_around_processor
    (float_str : Q -> string)
    (validate_optional_str : PyVal -> PyExn + option string)
    (validate_optional_float : PyVal -> PyExn + option Q)
    (rd : Readings) (payment_request : models.PaymentRequest.t)
    (self : PaymentProcessor) :
  let r := main.process_payment float_str validate_optional_str
             validate_optional_float rd payment_request self in
  let inner := payment_processor.process_payment rd
                 (models.PaymentRequest.customer_name payment_request)
                 (main.or_empty (models.PaymentRequest.customer_email payment_request))
                 (models.PaymentRequest.amount payment_request) self in
  after r = check (clock rd) self
  /\ (exists tail,
        events r
        = (Log INFO "Processing payment"
             [("customer_name",
               VStr (models.PaymentRequest.customer_name payment_request));
              ("amount", VFloat (models.PaymentRequest.amount payment_request))]
           :: events inner ++ tail)%list
        /\ sleeps tail = []
        /\ Forall (fun e => is_lock_event e = false) tail)
  /\ sleeps (events r) = sleeps (events inner).
Proof.
  intros r inner. subst r inner.
  rewrite <- (process_payment_after rd
                (models.PaymentRequest.customer_name payment_request)
                (main.or_empty (models.PaymentRequest.customer_email payment_request))
                (models.PaymentRequest.amount payment_request) self).
  unfold main.process_payment, main.process_payment_with, main.try_except,
    main.raise, main.returns.
  unfold value, after, events, bind, get, ret, emit; simpl.
  destruct (payment_processor.process_payment rd _ _ _ self) as [[result s'] ev].
  simpl.
  assert (Hdone :
    (exists tail, ev = (ev ++ tail)%list /\ sleeps tail = []
                  /\ Forall (fun e => is_lock_event e = false) tail)).
  { exists []. rewrite app_nil_r. repeat split. constructor. }
  destruct (result !! "success") as [ok|]; simpl;
    [destruct (negb (truthy ok)); simpl;
     [|destruct (main.make_PaymentResponse _ _ _ _) as [[sc dt|e]|resp]; simpl]|];
    (split; [reflexivity|]);
    rewrite ?app_nil_r, <- ?app_assoc; simpl; rewrite ?app_nil_r;
    (split;
     [first [ destruct Hdone as (tail & He & Hs & Hl); exists tail;
              split; [f_equal; exact He | split; assumption]
            | eexists; split; [reflexivity|]; split;
              [reflexivity | repeat constructor] ]
     | rewrite ?sleeps_app; simpl; rewrite ?app_nil_r; reflexivity]).
Qed.

Local Transparent payment_processor.process_payment.

(** ** The event loop: what every reachable state keeps *)

Section loop_invariants.

Import event_loop.

Lemma check_events_no_sleep (now d : Q) (p : PaymentProcessor) :
  ~ In (Sleep d) (events (_check_and_update_slowdown now p)).
Proof.
  unfold_proc. destruct p as [en ac st nx]; simpl.
  destruct en; simpl;
    repeat match goal with
      | |- context [if ?b then _ else _] => destruct b; simpl
      end;
    intuition discriminate.
Qed.

Local Opaque tagged.

(** What a step does to the task that runs and to the processor. *)
Lemma step_effect (i : nat) (w w' : Loop) :
  step i w = Some w' ->
  exists t t' evs,
    tasks w !! i = Some t
    /\ tasks w' = <[i := t']> (tasks w)
    /\ trace w' = (trace w ++ tagged i evs)%list
    /\ call_of t' = call_of t
    /\ is_monitor t' = is_monitor t
    /\ (processor w' = processor w
        \/ exists now, processor w' = check now (processor w))
    /\ result_settled t'
    /\ (_slowdown_enabled (processor w) = false -> slowed t = false ->
        slowed t' = false)
    /\ (forall d, In (Sleep d) evs ->
        d = 1 # 2 \/ slowed t = true \/ is_monitor t = true).
Proof.
  unfold step. destruct (tasks w !! i) as [t|] eqn:Hi; [|discriminate].
  destruct t as [c pc | clock_at iteration pc]; destruct pc; simpl;
    unfold settle;
    try discriminate;
    repeat match goal with
      | |- context [if ?b then _ else _] => destruct b eqn:?; simpl
      end;
    try discriminate;
    intros [= <-]; simpl;
    (eexists _, _, _; split; [reflexivity|]; split; [reflexivity|];
     split; [reflexivity|]; split; [reflexivity|]; split; [reflexivity|]);
    simpl;
    (split;
     [first [ left; reflexivity
            | left; apply get_slowdown_delay_pure
            | right; eexists; reflexivity ]|]);
    (split;
     [first [ exact I
            | match goal with H : Qlt_bool _ _ = _ |- _ => rewrite H end;
              reflexivity ]|]);
    (split;
     [intros He Hs;
      first [ reflexivity | exact Hs | congruence
            | rewrite get_slowdown_delay_value, He; reflexivity ]
     |intros d Hin;
      first [ apply check_events_no_sleep in Hin; destruct Hin
            | rewrite (proj2 (get_slowdown_delay_pure _ _)) in Hin; destruct Hin
            | right; right; reflexivity
            | simpl in Hin; intuition (try discriminate; try congruence);
              first [ left; congruence | right; left; congruence ] ]]).
Qed.

Local Transparent tagged.

Lemma start_time_iff_active_checks (times : list Q) (s : PaymentProcessor) :
  start_time_iff_active s -> start_time_iff_active (checks times s).
Proof.
  revert s. induction times as [|t times IH]; intros s Hs; [exact Hs|].
  rewrite checks_cons. apply IH.
  destruct (check_trichotomy t s) as [-> | [(_ & _ & _ & ->) | (_ & _ & _ & ->)]].
  - exact Hs.
  - split; [discriminate | reflexivity].
  - split; [discriminate | intros H; contradiction H; reflexivity].
Qed.

Lemma map_insert_same {A B : Type} (f : A -> B) (l : list A) (i : nat) (x y : A) :
  l !! i = Some x -> f y = f x -> map f (<[i := y]> l) = map f l.
Proof.
  revert i. induction l as [|a l IH]; intros i Hi Hf; [reflexivity|].
  destruct i as [|i]; simpl in *.
  - injection Hi as ->. rewrite Hf. reflexivity.
  - rewrite (IH i Hi Hf). reflexivity.
Qed.

Lemma map_lookup {A B : Type} (f : A -> B) (l : list A) (i : nat) :
  map f l !! i = option_map f (l !! i).
Proof.
  revert i. induction l as [|a l IH]; intros [|i]; simpl; auto.
Qed.

Lemma reachable_checks (w0 w : Loop) :
  reachable w0 w -> exists times, processor w = checks times (processor w0).
Proof.
  intros Hreach.
  induction Hreach as [|w w' i _ [times IH] Hstep]; [exists []; reflexivity|].
  destruct (step_effect i w w' Hstep)
    as (t & t' & evs & _ & _ & _ & _ & _ & [Hp | [t1 Hp]] & _).
  - exists times. congruence.
  - exists (times ++ [t1])%list. rewrite checks_app, <- IH. exact Hp.
Qed.

(** X13. In every state the service can reach from startup, whatever the
    order in which the tasks run, the processor is the constructed one
    after some sequence of state checks and nothing else: [active] holds
    exactly when a start time is recorded, so no task ever sees one without
    the other, and [enabled] is still the flag read from the environment
    at startup. *)
Theorem reachable_processor_is_checked
    (env : option string) (now : Q) (calls : list Call) (clock_at : nat -> Q)
    (w : Loop) :
  reachable (startup env now calls clock_at) w ->
  (exists times, processor w = checks times (__init__ env now))
  /\ start_time_iff_active (processor w)
  /\ _slowdown_enabled (processor w) = slowdown_enabled_of_env env.
Proof.
  intros Hreach.
  pose proof (reachable_checks _ _ Hreach) as Htimes. simpl in Htimes.
  split; [exact Htimes|]. destruct Htimes as [times ->].
  split.
  - apply start_time_iff_active_checks.
    split; [discriminate | intros H; contradiction H; reflexivity].
  - rewrite checks_enabled. reflexivity.
Qed.

Lemma reachable_processor_is_checked_witness :
  let c := {| readings := {| clock := 130; delay_draw := 1 # 3;
                             failure_draw := 1 # 2; uuid4 := "a1" |};
              customer_name := "Ada Lovelace"; customer_email := EmptyString;
              amount := 45 # 10 |} in
  match run [0; 0; 1; 0; 0; 1; 1]%nat
          (startup (Some "true") 100 [c] (fun _ => 160)) with
  | Some w => start_time_iff_active (processor w)
              /\ _slowdown_enabled (processor w) = true
  | None => False
  end.
Proof.
  intros c.
  destruct (run [0; 0; 1; 0; 0; 1; 1]%nat (startup (Some "true") 100 [c] (fun _ => 160)))
    as [w|] eqn:Hrun; [|vm_compute in Hrun; discriminate Hrun].
  exact (proj2 (reachable_processor_is_checked (Some "true") 100 [c]
                  (fun _ => 160) w
                  (run_reachable _ _ _ _ (reachable_start _) Hrun))).
Defined.

(** X14. When the feature is disabled at startup, in every state the
    service can reach the processor is still exactly the constructed one,
    no monitor task exists, no payment call is in or about to enter a
    slowdown sleep, and every sleep in the trace is the base delay of
    0.5 s. *)
Theorem disabled_service_never_slows
    (env : option string) (now : Q) (calls : list Call) (clock_at : nat -> Q)
    (w : Loop) :
  slowdown_enabled_of_env env = false ->
  reachable (startup env now calls clock_at) w ->
  processor w = __init__ env now
  /\ Forall (fun t => is_monitor t = false /\ slowed t = false) (tasks w)
  /\ (forall i d, In (i, Sleep d) (trace w) -> d = 1 # 2).
Proof.
  intros Hoff Hreach.
  assert (Hdis : _slowdown_enabled (__init__ env now) = false)
    by (simpl; exact Hoff).
  induction Hreach as [|w w' i _ (Hp & Htasks & Htrace) Hstep].
  - split; [reflexivity|]. split; [|intros i d []].
    simpl. rewrite Hoff, app_nil_r. apply Forall_forall.
    intros t Hin. apply list_elem_of_In, in_map_iff in Hin as (c & <- & _).
    split; reflexivity.
  - destruct (step_effect i w w' Hstep)
      as (t & t' & evs & Hi & Hts & Htr & _ & Hmon & Hproc & _ & Hslow & Hsleep).
    pose proof (Forall_lookup_1 _ _ _ _ Htasks Hi) as [Htm Hts0].
    rewrite Hp in Hproc, Hslow.
    split; [|split].
    + destruct Hproc as [Hq | [t1 Hq]]; [exact Hq|].
      rewrite Hq. apply check_disabled, Hdis.
    + rewrite Hts. apply Forall_insert; [exact Htasks|].
      split; [congruence | apply Hslow; assumption].
    + intros j d Hin. rewrite Htr in Hin. apply in_app_or in Hin as [Hin | Hin].
      * eapply Htrace; eauto.
      * apply in_map_iff in Hin as (e & Heq & Hin).
        injection Heq as _ He. subst e.
        destruct (Hsleep d Hin) as [Hd | [Hs | Hm]]; [exact Hd | congruence..].
Qed.

Lemma disabled_service_never_slows_witness :
  let c := {| readings := {| clock := 130; delay_draw := 1 # 3;
                             failure_draw := 1 # 2; uuid4 := "a1" |};
              customer_name := "Ada Lovelace"; customer_email := EmptyString;
              amount := 45 # 10 |} in
  match run [0; 0; 0; 0; 0]%nat (startup None 100 [c] (fun _ => 160)) with
  | Some w => processor w = __init__ None 100
  | None => False
  end.
Proof.
  intros c.
  destruct (run [0; 0; 0; 0; 0]%nat (startup None 100 [c] (fun _ => 160)))
    as [w|] eqn:Hrun; [|vm_compute in Hrun; discriminate Hrun].
  exact (proj1 (disabled_service_never_slows None 100 [c] (fun _ => 160) w
                  eq_refl (run_reachable _ _ _ _ (reachable_start _) Hrun))).
Defined.

Lemma tasks_keep_calls (w0 w : Loop) :
  reachable w0 w ->
  Forall result_settled (tasks w0) ->
  map call_of (tasks w) = map call_of (tasks w0)
  /\ Forall result_settled (tasks w).
Proof.
  intros Hreach H0. induction Hreach as [|w w' i _ [Hcalls Hres] Hstep];
    [split; [reflexivity | exact H0]|].
  destruct (step_effect i w w' Hstep)
    as (t & t' & evs & Hi & Hts & _ & Hcall & _ & _ & Hset & _).
  rewrite Hts. split.
  - rewrite (map_insert_same call_of _ _ _ _ Hi Hcall). exact Hcalls.
  - apply Forall_insert; assumption.
Qed.

(** X15. In every state the service can reach, the [i]-th payment call is
    still the [i]-th task, with the arguments and readings it started with,
    and if it has returned, its result is the one its own failure draw,
    identifier and amount determine: the decline below the rate, the
    success otherwise. No order of the tasks changes the result of a
    call. *)
Theorem interleaving_keeps_results
    (env : option string) (now : Q) (calls : list Call) (clock_at : nat -> Q)
    (w : Loop) (i : nat) (c : Call) :
  reachable (startup env now calls clock_at) w ->
  calls !! i = Some c ->
  exists pc,
    tasks w !! i = Some (RequestTask c pc)
    /\ forall result, pc = Returned result ->
         result = value (payment_processor.process_payment (readings c)
                           (customer_name c) (customer_email c) (amount c)
                           (__init__ env now)).
Proof.
  intros Hreach Hi.
  destruct (tasks_keep_calls _ _ Hreach) as [Hcalls Hres].
  { simpl. apply Forall_app. split.
    - apply Forall_forall. intros t Hin.
      apply list_elem_of_In, in_map_iff in Hin as (c' & <- & _). exact I.
    - destruct (slowdown_enabled_of_env env); repeat constructor. }
  assert (Hlook : map call_of (tasks w) !! i = Some (Some c)).
  { rewrite Hcalls. simpl. rewrite map_app, map_map. simpl.
    rewrite lookup_app_l.
    - rewrite map_lookup, Hi. reflexivity.
    - rewrite length_map. eapply lookup_lt_Some; eauto. }
  rewrite map_lookup in Hlook.
  destruct (tasks w !! i) as [t|] eqn:Ht; [|discriminate].
  simpl in Hlook. injection Hlook as Hc.
  destruct t as [c' pc|]; [|discriminate]. simpl in Hc. injection Hc as ->.
  exists pc. split; [reflexivity|].
  intros result ->. rewrite process_payment_value.
  exact (Forall_lookup_1 _ _ _ _ Hres Ht).
Qed.

Lemma interleaving_keeps_results_witness :
  let c := {| readings := {| clock := 130; delay_draw := 1 # 3;
                             failure_draw := 1 # 100; uuid4 := "a1" |};
              customer_name := "Ada Lovelace"; customer_email := EmptyString;
              amount := 45 # 10 |} in
  match run [0; 1; 0; 0; 0; 1; 0; 0]%nat
          (startup (Some "true") 100 [c] (fun _ => 160)) with
  | Some w => exists pc, tasks w !! 0%nat = Some (RequestTask c pc)
  | None => False
  end.
Proof.
  intros c.
  destruct (run [0; 1; 0; 0; 0; 1; 0; 0]%nat
              (startup (Some "true") 100 [c] (fun _ => 160)))
    as [w|] eqn:Hrun; [|vm_compute in Hrun; discriminate Hrun].
  destruct (interleaving_keeps_results (Some "true") 100 [c] (fun _ => 160) w
              0%nat c (run_reachable _ _ _ _ (reachable_start _) Hrun) eq_refl)
    as (pc & Hpc & _).
  exists pc. exact Hpc.
Defined.




Lemma task_can_run (i : nat) (w : Loop) (t : Task) :
  tasks w !! i = Some t -> has_returned t = false ->
  at_acquire t = false \/ _slowdown_lock w = false ->
  exists w', step i w = Some w'.
Proof.
  intros Hi Hret Hfree. unfold step. rewrite Hi.
  destruct t as [c pc | clock_at n pc]; destruct pc; simpl in *;
    try discriminate;
    try (destruct Hfree as [Hf | Hf]; [discriminate Hf | rewrite Hf]);
    try (destruct (Qlt_bool 0 slowdown_delay));
    try (destruct (settle c));
    eexists; reflexivity.
Qed.

Lemma blocked_or_runnable (ts : list Task) :
  (exists i t, ts !! i = Some t /\ has_returned t = false /\ at_acquire t = false)
  \/ (exists i t, ts !! i = Some t /\ at_acquire t = true)
     /\ Forall (fun t => in_critical_section t = false) ts
  \/ Forall (fun t => has_returned t = true) ts.
Proof.
  induction ts as [|a ts IH]; [right; right; constructor|].
  destruct (has_returned a) eqn:Hr.
  - destruct IH as [(i & t & Hi & H1 & H2) | [[(i & t & Hi & H1) Hall] | Hall]].
    + left. exists (S i), t. auto.
    + right; left. split; [exists (S i), t; auto|].
      constructor; [destruct a as [? []|? ? []]; simpl in *; congruence | exact Hall].
    + right; right. constructor; assumption.
  - destruct (at_acquire a) eqn:Ha.
    + destruct IH as [(i & t & Hi & H1 & H2) | [[_ Hall] | Hall]].
      * left. exists (S i), t. auto.
      * right; left. split; [exists 0%nat, a; auto|].
        constructor; [destruct a as [? []|? ? []]; simpl in *; congruence | exact Hall].
      * right; left. split; [exists 0%nat, a; auto|].
        constructor; [destruct a as [? []|? ? []]; simpl in *; congruence|].
        eapply Forall_impl; [exact Hall|].
        intros t Ht. destruct t as [? []|? ? []]; simpl in *; congruence.
    + left. exists 0%nat, a. auto.
Qed.

(** X16. The service never deadlocks on the lock: in every state it can
    reach from startup, some task can take a step, unless every task is a
    payment call that has returned. In particular the task that holds the
    lock is never blocked, and with the monitor running there is always a
    next step. *)
Theorem service_never_deadlocks
    (env : option string) (now : Q) (calls : list Call) (clock_at : nat -> Q)
    (w : Loop) :
  reachable (startup env now calls clock_at) w ->
  ((exists i w', step i w = Some w')
   \/ Forall (fun t => has_returned t = true) (tasks w))
  /\ (forall i t, tasks w !! i = Some t -> in_critical_section t = true ->
        exists w', step i w = Some w')
  /\ (forall i t, tasks w !! i = Some t -> is_monitor t = true ->
        exists j w', step j w = Some w').
Proof.
  intros Hreach.
  pose proof (lock_invariant_reachable _ _
                (lock_invariant_startup env now calls clock_at) Hreach)
    as [Hcount _].
  assert (Hmain : (exists i w', step i w = Some w')
                  \/ Forall (fun t => has_returned t = true) (tasks w)).
  { destruct (blocked_or_runnable (tasks w))
      as [(i & t & Hi & H1 & H2) | [[(i & t & Hi & H1) Hall] | Hall]].
    - left. exists i. eapply task_can_run; eauto.
    - left. exists i. eapply task_can_run; eauto.
      + destruct t as [? []|? ? []]; simpl in *; congruence.
      + right. assert (H0 : inside (tasks w) = 0%nat).
        { apply inside_none. intros j tj Hj.
          exact (Forall_lookup_1 _ _ _ _ Hall Hj). }
        rewrite Hcount in H0. destruct (_slowdown_lock w); [discriminate H0|].
        reflexivity.
    - right. exact Hall. }
  split; [exact Hmain|]. split.
  - intros i t Hi Hc. eapply task_can_run; eauto.
    + destruct t as [? []|? ? []]; simpl in *; congruence.
    + left. destruct t as [? []|? ? []]; simpl in *; congruence.
  - intros i t Hi Hm. destruct Hmain as [H | Hall]; [exact H|].
    pose proof (Forall_lookup_1 _ _ _ _ Hall Hi) as Hr.
    destruct t; simpl in *; congruence.
Qed.

Lemma service_never_deadlocks_witness :
  let c := {| readings := {| clock := 130; delay_draw := 1 # 3;
                             failure_draw := 1 # 100; uuid4 := "a1" |};
              customer_name := "Ada Lovelace"; customer_email := EmptyString;
              amount := 45 # 10 |} in
  match run [0; 2; 0]%nat (startup (Some "true") 100 [c; c] (fun _ => 160)) with
  | Some w => (exists i w', step i w = Some w')
              \/ Forall (fun t => has_returned t = true) (tasks w)
  | None => False
  end.
Proof.
  intros c.
  destruct (run [0; 2; 0]%nat (startup (Some "true") 100 [c; c] (fun _ => 160)))
    as [w|] eqn:Hrun; [|vm_compute in Hrun; discriminate Hrun].
  exact (proj1 (service_never_deadlocks (Some "true") 100 [c; c] (fun _ => 160) w
                  (run_reachable _ _ _ _ (reachable_start _) Hrun))).
Defined.

End loop_invariants.

(** ** The monitor task *)

Lemma check_events_are_info_logs (now : Q) (p : PaymentProcessor) :
  Forall (fun e => is_error_log e = false /\ is_lock_event e = false)
    (events (_check_and_update_slowdown now p)).
Proof.
  unfold_proc. destruct p as [en ac st nx]; simpl.
  destruct en; simpl;
    repeat match goal with
      | |- context [if ?b then _ else _] => destruct b; simpl
      end;
    repeat constructor.
Qed.

Lemma check_events_no_sleep_filter (now : Q) (p : PaymentProcessor) :
  List.filter
    (fun e => is_lock_event e || match e with Sleep _ => true | _ => false end)
    (events (_check_and_update_slowdown now p)) = [].
Proof.
  unfold_proc. destruct p as [en ac st nx]; simpl.
  destruct en; simpl;
    repeat match goal with
      | |- context [if ?b then _ else _] => destruct b; simpl
      end;
    reflexivity.
Qed.

Lemma monitor_tick (now : Q) (rest : list Round) (self : PaymentProcessor) :
  monitor_slowdown_cycles (Tick now :: rest) self
  = let r := monitor_slowdown_cycles rest (check now self) in
    (value r, after r,
     (Sleep 30 :: LockAcquire
      :: events (_check_and_update_slowdown now self)
      ++ LockRelease :: events r)%list).
Proof.
  unfold check. simpl. unfold bind, emit, ret, value, after, events. simpl.
  destruct (_check_and_update_slowdown now self) as [[[] s1] ev1]. simpl.
  destruct (monitor_slowdown_cycles rest s1) as [[b s2] ev2]. simpl.
  rewrite <- app_assoc. reflexivity.
Qed.

(** X17. Over any rounds of its loop, the monitor changes the processor
    exactly as one state check per completed round does, at the clock
    readings of the rounds and in their order; it leaves the loop exactly
    when a round is cancelled, and what follows a cancelled round has no
    effect; it never logs an error; and it takes and releases the lock once
    per completed round, never holding it over a sleep. *)
Theorem monitor_checks_once_per_round (rounds : list Round) (self : PaymentProcessor) :
  let r := monitor_slowdown_cycles rounds self in
  after r = checks (ticks rounds) self
  /\ value r = existsb is_cancelled rounds
  /\ Forall (fun e => is_error_log e = false) (events r)
  /\ List.filter (fun e => is_lock_event e || match e with Sleep _ => true | _ => false end)
       (events r)
     = (flat_map (fun _ => [Sleep 30; LockAcquire; LockRelease]) (ticks rounds)
        ++ match drop (length (ticks rounds)) rounds with
           | CancelledAtLock :: _ => [Sleep 30]
           | _ => []
           end)%list.
Proof.
  revert self. induction rounds as [|[now| |] rest IH]; intros self.
  - simpl. repeat split; constructor.
  - rewrite monitor_tick. destruct (IH (check now self)) as (Ha & Hv & He & Hl).
    pose proof (check_events_no_sleep_filter now self) as Hnone.
    pose proof (check_events_are_info_logs now self) as Hinfo.
    cbn zeta in *.
    remember (monitor_slowdown_cycles rest (check now self)) as r.
    unfold value, after, events in *. cbn [fst snd] in *.
    split; [exact Ha|]. split; [exact Hv|]. split.
    + repeat constructor. apply Forall_app. split.
      * eapply Forall_impl; [exact Hinfo|]. intros e [H _]; exact H.
      * constructor; [reflexivity | exact He].
    + cbn [ticks flat_map length drop List.filter is_lock_event orb].
      rewrite List.filter_app, Hnone.
      cbn [List.filter is_lock_event orb app]. rewrite Hl. reflexivity.
  - simpl. repeat split; repeat constructor.
  - simpl. repeat split; repeat constructor.
Qed.

(** ** Tasks that run without interruption *)

Section uninterrupted.

Import event_loop.

Local Opaque _check_and_update_slowdown.

Lemma monitor_round_alone (i : nat) (w : Loop) (clock_at : nat -> Q) (n : nat) :
  tasks w !! i = Some (MonitorTask clock_at n MonInSleep) ->
  _slowdown_lock w = false ->
  let r := monitor_slowdown_cycles [Tick (clock_at n)] (processor w) in
  run [i; i; i; i] w
  = Some {| processor := after r;
            _slowdown_lock := false;
            tasks := <[i := MonitorTask clock_at (S n) MonInSleep]> (tasks w);
            trace := (trace w ++ tagged i (events r))%list |}.
Proof.
  destruct w as [p l ts tr]; simpl. intros Hi ->.
  assert (Hlen : (i < length ts)%nat) by (eapply lookup_lt_Some; eauto).
  unfold bind, emit, ret, value, after, events.
  destruct (_check_and_update_slowdown (clock_at n) p) as [[[] p1] ev1] eqn:Hcheck.
  simpl. unfold step, step_monitor; simpl.
  repeat (rewrite ?list_insert_insert_eq;
          rewrite ?Hi, ?list_lookup_insert_eq by exact Hlen; simpl;
          rewrite ?Hcheck; unfold after, value, events; simpl).
  rewrite ?list_insert_insert_eq.
  unfold tagged; rewrite ?map_app, <- ?app_assoc; simpl;
    rewrite ?app_nil_r, ?map_app, <- ?app_assoc; reflexivity.
Qed.

Local Transparent _check_and_update_slowdown.

(** X19. A task that runs with no other task in between does what its
    coroutine does as a whole. A payment task taken from entering the lock
    to its return leaves the result, the processor and the events, in
    order, of [process_payment], and the lock free. The monitor taken
    through one round, in four steps, leaves the processor and the events
    of one round of [monitor_slowdown_cycles], the lock free, and is back
    in its sleep. *)
Theorem uninterrupted_task_is_its_coroutine (i : nat) (w : Loop) :
  _slowdown_lock w = false ->
  (forall c,
     tasks w !! i = Some (RequestTask c AtAcquire) ->
     let r := payment_processor.process_payment (readings c) (customer_name c)
                (customer_email c) (amount c) (processor w) in
     exists n,
       run (repeat i n) w
       = Some {| processor := after r;
                 _slowdown_lock := false;
                 tasks := <[i := RequestTask c (Returned (value r))]> (tasks w);
                 trace := (trace w ++ tagged i (events r))%list |})
  /\ (forall clock_at n,
        tasks w !! i = Some (MonitorTask clock_at n MonInSleep) ->
        let r := monitor_slowdown_cycles [Tick (clock_at n)] (processor w) in
        run [i; i; i; i] w
        = Some {| processor := after r;
                  _slowdown_lock := false;
                  tasks := <[i := MonitorTask clock_at (S n) MonInSleep]> (tasks w);
                  trace := (trace w ++ tagged i (events r))%list |}).
Proof.
  intros Hl. split.
  - intros c Hi. apply request_alone; assumption.
  - intros clock_at n Hi. apply monitor_round_alone; assumption.
Qed.

Lemma uninterrupted_task_is_its_coroutine_witness :
  let w := startup (Some "true") 100 [] (fun _ => 160) in
  run [0; 0; 0; 0]%nat w
  = Some {| processor := check 160 (__init__ (Some "true") 100);
            _slowdown_lock := false;
            tasks := [MonitorTask (fun _ => 160) 1 MonInSleep];
            trace := (trace w
                      ++ tagged 0 (events (monitor_slowdown_cycles [Tick 160]
                                             (processor w))))%list |}.
Proof.
  exact (proj2 (uninterrupted_task_is_its_coroutine 0
                  (startup (Some "true") 100 [] (fun _ => 160)) eq_refl)
           (fun _ => 160) 0%nat eq_refl).
Defined.

End uninterrupted.
